(** * Anomaly detection engine of the metrics agent: a shallow embedding

    The Python sources embedded here are
    - [src/models/metric.py], [src/models/anomaly.py]            (data model)
    - [src/detectors/base_detector.py]                            (shared helper)
    - [src/detectors/spike_detector.py]
    - [src/detectors/statistical_detector.py]
    - [src/detectors/threshold_detector.py]
    - [src/detectors/pattern_detector.py]
    - [src/detectors/llm_validator.py], [src/utils/llm_client.py]
    - [src/collectors/prometheus_collector.py]

    Conventions of the embedding.
    - A Python [float] is a real number of [R]: arithmetic is exact, there is
      no rounding, no NaN and no infinity.  [np.sqrt] is [sqrt].
    - A [datetime] is an integer (microseconds since the epoch).
    - A Python [dict] read by key is a [gmap]; a [dict] that is iterated
      ([self.thresholds.items()], [by_timestamp.items()]) is a list of
      key/value pairs in insertion order.
    - Code that can raise runs in the monad [Py]: a computation takes the
      state of the [uuid4] supply and gives back a returned value or a raised
      exception, with the new state.
    - Logging calls are dropped. *)

From Stdlib Require Import Reals Lra Lia ZArith Ascii String.
From stdpp Require Import base option list gmap strings.

Set Warnings "-clear-no-such-hyp".

Open Scope R_scope.

(** ** Python runtime: exceptions, the [uuid4] supply, loops *)

Module Py.

Inductive exn : Type :=
| ValueError (msg : string)
| TypeError (msg : string)
| KeyError (key : string)
| IndexError
| OtherError (msg : string).

Inductive outcome (A : Type) : Type :=
| Return (a : A)
| Raise (e : exn).
Arguments Return {A} a.
Arguments Raise {A} e.

(** The state is the number of identifiers [uuid4()] has handed out. *)
Definition uuid : Type := nat.
Definition world : Type := nat.

Definition M (A : Type) : Type := world -> outcome A * world.

Definition ret {A} (a : A) : M A := fun w => (Return a, w).

Definition bind {A B} (c : M A) (k : A -> M B) : M B :=
  fun w => match c w with
           | (Return a, w') => k a w'
           | (Raise e, w') => (Raise e, w')
           end.

#[global] Instance M_ret : MRet M := @ret.
#[global] Instance M_bind : MBind M := fun A B k c => bind c k.

Definition raise {A} (e : exn) : M A := fun w => (Raise e, w).

(** [try: c  except Exception as e: h e] *)
Definition try_except {A} (c : M A) (h : exn -> M A) : M A :=
  fun w => match c w with
           | (Return a, w') => (Return a, w')
           | (Raise e, w') => h e w'
           end.

(** [str(uuid4())]: a token that was never handed out before. *)
Definition uuid4 : M uuid := fun w => (Return w, S w).

(** [l[i]] on a Python list, for a non-negative [i]. *)
Definition getitem {A} (l : list A) (i : nat) : M A :=
  match l !! i with
  | Some x => mret x
  | None => raise IndexError
  end.

(** A [for x in xs:] loop whose body ends in [continue] ([None]) or in
    [result.append(b)] ([Some b]); the value is the list built. *)
Fixpoint for_append {A B} (xs : list A) (body : A -> M (option B))
  : M (list B) :=
  match xs with
  | [] => mret []
  | x :: xs' =>
      o ← body x;
      rest ← for_append xs' body;
      mret (match o with Some b => b :: rest | None => rest end)
  end.

(** A [for x in xs:] loop whose body ends in [continue] ([[]]) or in
    [result.extend(bs)]. *)
Fixpoint for_extend {A B} (xs : list A) (body : A -> M (list B))
  : M (list B) :=
  match xs with
  | [] => mret []
  | x :: xs' =>
      bs ← body x;
      rest ← for_extend xs' body;
      mret (bs ++ rest)
  end.

(** [str(e)] *)
Definition exn_str (e : exn) : string :=
  match e with
  | ValueError msg | TypeError msg | OtherError msg => msg
  | KeyError key => key
  | IndexError => "list index out of range"
  end.

(** [range(a, b)] *)
Definition range (a b : nat) : list nat := seq a (b - a).

End Py.

Import Py.

#[global] Instance Req_decision : EqDecision R := Req_dec_T.
#[global] Instance Rle_decision (x y : R) : Decision (x <= y) := Rle_dec x y.
#[global] Instance Rlt_decision (x y : R) : Decision (x < y) := Rlt_dec x y.
#[global] Instance Rge_decision (x y : R) : Decision (x >= y) := Rge_dec x y.
#[global] Instance Rgt_decision (x y : R) : Decision (x > y) := Rgt_dec x y.

(** [round(x, ndigits)]: [x] rounded to [ndigits] decimals, a tie going to
    the even neighbour. *)
Definition round_half_even (y : R) : Z :=
  let f := Int_part y in
  let r := y - IZR f in
  if decide (r < 1 / 2) then f
  else if decide (r > 1 / 2) then (f + 1)%Z
  else if Z.even f then f else (f + 1)%Z.
Definition round (x : R) (ndigits : nat) : R :=
  IZR (round_half_even (x * 10 ^ ndigits)) / 10 ^ ndigits.

(** ** Data model: [models/metric.py] and [models/anomaly.py] *)

Definition datetime : Type := Z.
Definition Labels : Type := gmap string string.

Inductive MetricType : Type := COUNTER | GAUGE | HISTOGRAM | SUMMARY.

Record MetricValue : Type := mkMetricValue {
  mv_timestamp : datetime;
  mv_value : R;
  mv_labels : Labels
}.

Record Metric : Type := mkMetric {
  m_name : string;
  m_metric_type : MetricType;
  m_values : list MetricValue;
  m_description : option string
}.

Definition get_values_array (m : Metric) : list R :=
  map mv_value (m_values m).

(** [Metric.add_value]: the sample goes to the end of [self.values]; the
    labels are [labels or {}]. *)
Definition add_value (m : Metric) (timestamp : datetime) (value : R)
    (labels : option Labels) : Metric :=
  let metric_value := mkMetricValue timestamp value (default ∅ labels) in
  mkMetric (m_name m) (m_metric_type m) (m_values m ++ [metric_value])
    (m_description m).

Definition get_timestamps_array (m : Metric) : list datetime :=
  map mv_timestamp (m_values m).

(** [get_latest_value]: [self.values[-1] if self.values else None] *)
Definition get_latest_value (m : Metric) : option MetricValue :=
  last (m_values m).

(** [Metric.__len__] *)
Definition Metric_len (m : Metric) : nat := length (m_values m).

Inductive AnomalyType : Type :=
| SPIKE | DROP | STATISTICAL_OUTLIER | THRESHOLD_BREACH | PATTERN_ANOMALY.

Inductive Severity : Type := LOW | MEDIUM | HIGH | CRITICAL.

#[global] Instance AnomalyType_eq_dec : EqDecision AnomalyType.
Proof. solve_decision. Defined.
#[global] Instance Severity_eq_dec : EqDecision Severity.
Proof. solve_decision. Defined.

(** An f-string: literal text and formatted floats ([{x:.1f}], [{x:.2f}]);
    the digits of a formatted float are not computed. *)
Inductive fpiece : Type :=
| Lit (s : string)
| Fixed (digits : nat) (x : R).
Definition fstring : Type := list fpiece.

(** A Python value as the anomaly dicts and [metadata] hold them.
    [t.isoformat()] is kept as [VIso t] (so that [datetime.fromisoformat]
    gives [t] back), a [datetime] object as [VDatetime t], [str(uuid4())]
    as [VUuid u] and a dict from strings to strings as [VLabels]. *)
#[warnings="-register-all"]
Inductive PyVal : Type :=
| VNone
| VBool (b : bool)
| VFloat (x : R)
| VStr (s : string)
| VText (t : fstring)
| VIso (t : datetime)
| VDatetime (t : datetime)
| VUuid (u : uuid)
| VLabels (l : Labels)
| VDict (d : gmap string PyVal).

Abbreviation PyDict := (gmap string PyVal).

Record Anomaly : Type := mkAnomaly {
  metric_name : string;
  anomaly_type : AnomalyType;
  severity : Severity;
  timestamp : datetime;
  value : R;
  detector_name : string;
  confidence : R;
  expected_value : option R;
  description : fstring;
  metadata : PyDict;
  labels : Labels;
  anomaly_id : uuid;
  start_time : option datetime;
  end_time : option datetime;
  llm_validated : bool;
  llm_status : option string
}.

(** [Anomaly.__post_init__]: [if not 0 <= self.confidence <= 1: raise]. *)
Definition post_init (a : Anomaly) : M Anomaly :=
  if decide (0 <= confidence a /\ confidence a <= 1)
  then mret a
  else raise (ValueError "Confidence must be between 0 and 1").

(** The dataclass constructor as the detectors call it: the ten keyword
    arguments of [BaseDetector._create_anomaly]; every other field takes its
    default ([labels] the empty dict, [anomaly_id] a fresh [uuid4]). *)
Definition Anomaly_new (metric_name : string) (anomaly_type : AnomalyType)
    (severity : Severity) (timestamp : datetime) (value : R)
    (detector_name : string) (confidence : R) (expected_value : option R)
    (description : fstring) (metadata : PyDict) : M Anomaly :=
  id ← uuid4;
  post_init (mkAnomaly metric_name anomaly_type severity timestamp value
               detector_name confidence expected_value description metadata
               ∅ id None None false None).

(** [Anomaly.deviation] *)
Definition deviation (a : Anomaly) : option R :=
  match expected_value a with
  | None => None
  | Some e => if decide (e = 0) then None
              else Some (((value a - e) / e) * 100)
  end.

(** ** [detectors/base_detector.py] *)

Module BaseDetector.

(** [validate_metric]: [len(metric.values) < min_points] gives [False]. *)
Definition validate_metric (metric : Metric) (min_points : nat) : bool :=
  if decide (length (m_values metric) < min_points)%nat then false else true.

(** [_create_anomaly]; [self.name] is the class name of the detector. *)
Definition _create_anomaly (name : string) (metric : Metric)
    (anomaly_type : AnomalyType) (severity : Severity)
    (timestamp : datetime) (value : R) (confidence : R)
    (description : fstring) (expected_value : option R)
    (metadata : PyDict) : M Anomaly :=
  Anomaly_new (m_name metric) anomaly_type severity timestamp value name
    confidence expected_value description metadata.

End BaseDetector.

(** ** [detectors/spike_detector.py] *)

Module SpikeDetector.

Record t : Type := mk {
  enabled : bool;
  sensitivity : R;
  min_change_percent : R
}.

(** [SpikeDetector(config)] with the defaults of [config.get]. *)
Definition default_config : t := mk true (8 / 10) 50.

Definition name : string := "SpikeDetector".

Definition _calculate_severity (change_percent : R) : Severity :=
  if decide (change_percent >= 200) then CRITICAL
  else if decide (change_percent >= 100) then HIGH
  else if decide (change_percent >= 75) then MEDIUM
  else LOW.

(** The part of the loop body after [percent_change] is known. *)
Definition check_change (self : t) (metric : Metric) (i : nat)
    (previous_value current_value percent_change : R)
  : M (option Anomaly) :=
  let abs_change := Rabs percent_change in
  if decide (abs_change >= min_change_percent self) then
    let '(anomaly_type, description) :=
      if decide (percent_change > 0)
      then (SPIKE, [Lit "Spike détecté: hausse de "; Fixed 1 percent_change;
                    Lit "%"])
      else (DROP, [Lit "Drop détecté: chute de "; Fixed 1 abs_change;
                   Lit "%"]) in
    let severity := _calculate_severity abs_change in
    let confidence := Rmin (abs_change / 100) 1 * sensitivity self in
    mv ← getitem (m_values metric) i;
    anomaly ← BaseDetector._create_anomaly name metric anomaly_type
                 severity (mv_timestamp mv) current_value confidence
                 description (Some previous_value)
                 (<["percent_change" := VFloat (round percent_change 2)]>
                  (<["previous_value" := VFloat previous_value]>
                   (<["change_magnitude" := VFloat abs_change]> ∅)));
    mret (Some anomaly)
  else mret None.

(** One iteration of [for i in range(1, len(values))]. *)
Definition body (self : t) (metric : Metric) (values : list R) (i : nat)
  : M (option Anomaly) :=
  previous_value ← getitem values (i - 1);
  current_value ← getitem values i;
  if decide (previous_value = 0) then
    if decide (current_value <> 0)
    then check_change self metric i previous_value current_value 100
    else mret None
  else
    check_change self metric i previous_value current_value
      (((current_value - previous_value) / previous_value) * 100).

Definition detect (self : t) (metric : Metric) : M (list Anomaly) :=
  if negb (enabled self) then mret []
  else if negb (BaseDetector.validate_metric metric 2) then mret []
  else
    let values := get_values_array metric in
    for_append (range 1 (length values)) (body self metric values).

End SpikeDetector.

(** ** The numpy functions the detectors call, on lists of reals

    numpy gives NaN (with a warning) for the mean, the standard deviation, a
    percentile or the median of an empty array; here these are [0].  The
    detectors reach them on non-empty arrays only, except with a window of
    size 0 in the pattern detector, where both NaN and 0 flag nothing. *)

Module np.

Definition sum (a : list R) : R := foldr Rplus 0 a.

(** [np.mean(a)] *)
Definition mean (a : list R) : R := sum a / INR (length a).

(** [np.std(a)], the population standard deviation:
    [sqrt(mean(abs(a - a.mean())**2))]. *)
Definition var (a : list R) : R :=
  mean (map (fun x => (Rabs (x - mean a)) ^ 2) a).
Definition std (a : list R) : R := sqrt (var a).

(** [np.sort(a)] *)
Fixpoint insert_sorted (x : R) (a : list R) : list R :=
  match a with
  | [] => [x]
  | y :: a' => if decide (x <= y) then x :: y :: a'
               else y :: insert_sorted x a'
  end.
Definition sort (a : list R) : list R := foldr insert_sorted [] a.

(** [np.percentile(a, q)], the default (linear) method, for an integer
    [q] of 0..100: the virtual index is [(n - 1) * q / 100]; the result
    interpolates between the two neighbours of the sorted array. *)
Definition percentile (a : list R) (q : nat) : R :=
  let s := sort a in
  let n := length s in
  let pos := ((n - 1) * q)%nat in
  let lo := (pos / 100)%nat in
  let hi := Nat.min (lo + 1) (n - 1) in
  let gamma := INR (pos mod 100) / 100 in
  let x := default 0 (s !! lo) in
  let y := default 0 (s !! hi) in
  x + gamma * (y - x).

(** [np.median(a)] *)
Definition median (a : list R) : R :=
  let s := sort a in
  let n := length s in
  if Nat.even n
  then (default 0 (s !! (n / 2 - 1)%nat) + default 0 (s !! (n / 2)%nat)) / 2
  else default 0 (s !! (n / 2)%nat).

(** [np.where(cond)[0]]: the indices at which the condition holds. *)
Definition where_ {A} (cond : A -> bool) (a : list A) : list nat :=
  omap (fun p : nat * A => if cond p.2 then Some p.1 else None)
       (imap (fun i x => (i, x)) a).

(** [np.sign] *)
Definition sign (x : R) : R :=
  if decide (x < 0) then -1 else if decide (x > 0) then 1 else 0.

(** [np.diff(a)]: [a[i+1] - a[i]]. *)
Fixpoint diff (a : list R) : list R :=
  match a with
  | x :: (y :: _) as a' => (y - x) :: diff a'
  | _ => []
  end.

(** [np.gradient(a)] with unit spacing: one-sided differences at the two
    ends, central differences inside; fewer than two elements raise. *)
Definition gradient (a : list R) : M (list R) :=
  let n := length a in
  if decide (n < 2)%nat
  then raise (ValueError "Shape of array too small to calculate a numerical gradient")
  else
    mret (imap (fun i _ =>
            let at_ k := default 0 (a !! k) in
            if decide (i = 0)%nat then at_ 1%nat - at_ 0%nat
            else if decide (i = n - 1)%nat
                 then at_ (n - 1)%nat - at_ (n - 2)%nat
                 else (at_ (i + 1)%nat - at_ (i - 1)%nat) / 2) a).

(** [np.convolve(a, v, mode='valid')]: an empty argument raises; the
    shorter array slides inside the longer one. *)
Definition convolve_valid (a v : list R) : M (list R) :=
  if decide (length a = 0)%nat then raise (ValueError "a cannot be empty")
  else if decide (length v = 0)%nat then raise (ValueError "v cannot be empty")
  else
    let '(a, v) := if decide (length a < length v)%nat then (v, a) else (a, v) in
    let m := length v in
    mret (map (fun k => sum (zip_with Rmult (take m (drop k a)) (reverse v)))
              (seq 0 (length a - m + 1))).

(** [np.ones(n) / n] *)
Definition ones_over (n : nat) : list R := replicate n (1 / INR n).

End np.

(** A Python slice [a[i:j]] with [0 <= i]. *)
Definition slice {A} (a : list A) (i j : nat) : list A :=
  take (j - i) (drop i a).

(** ** [detectors/statistical_detector.py] *)

Module StatisticalDetector.

Record t : Type := mk {
  enabled : bool;
  z_score_threshold : R;
  iqr_multiplier : R
}.

Definition default_config : t := mk true 3 (15 / 10).

Definition name : string := "StatisticalDetector".

Definition _calculate_zscore_severity (z_score : R) : Severity :=
  if decide (z_score >= 5) then CRITICAL
  else if decide (z_score >= 4) then HIGH
  else if decide (z_score >= 35 / 10) then MEDIUM
  else LOW.

Definition _calculate_iqr_severity (normalized_distance : R) : Severity :=
  if decide (normalized_distance >= 3) then CRITICAL
  else if decide (normalized_distance >= 2) then HIGH
  else if decide (normalized_distance >= 1) then MEDIUM
  else LOW.

Definition _detect_zscore_anomalies (self : t) (metric : Metric)
    (values : list R) : M (list Anomaly) :=
  let mean := np.mean values in
  let std := np.std values in
  if decide (std = 0) then mret []
  else
    let z_scores := map (fun v => Rabs ((v - mean) / std)) values in
    let outlier_indices :=
      np.where_ (fun z => bool_decide (z > z_score_threshold self)) z_scores in
    for_append outlier_indices (fun idx =>
      value ← getitem values idx;
      z_score ← getitem z_scores idx;
      let severity := _calculate_zscore_severity z_score in
      let confidence := Rmin (z_score / 5) 1 in
      let description :=
        [Lit "Valeur aberrante statistique: "; Fixed 2 value;
         Lit " (écart de "; Fixed 2 z_score; Lit " σ de la moyenne ";
         Fixed 2 mean; Lit ")"] in
      mv ← getitem (m_values metric) idx;
      anomaly ← BaseDetector._create_anomaly name metric STATISTICAL_OUTLIER
                  severity (mv_timestamp mv) value confidence description
                  (Some mean)
                  (<["z_score" := VFloat (round z_score 2)]>
                   (<["mean" := VFloat (round mean 2)]>
                    (<["std" := VFloat (round std 2)]>
                     (<["detection_method" := VStr "z_score"]> ∅))));
      mret (Some anomaly)).

Definition _detect_iqr_anomalies (self : t) (metric : Metric)
    (values : list R) : M (list Anomaly) :=
  let q1 := np.percentile values 25 in
  let q3 := np.percentile values 75 in
  let iqr := q3 - q1 in
  if decide (iqr = 0) then mret []
  else
    let lower_bound := q1 - iqr_multiplier self * iqr in
    let upper_bound := q3 + iqr_multiplier self * iqr in
    let outlier_indices :=
      np.where_ (fun v => bool_decide (v < lower_bound)
                          || bool_decide (v > upper_bound)) values in
    for_append outlier_indices (fun idx =>
      value ← getitem values idx;
      let '(distance, bound_type) :=
        if decide (value < lower_bound)
        then (lower_bound - value, "inférieure")
        else (value - upper_bound, "supérieure") in
      let normalized_distance :=
        if decide (iqr > 0) then distance / iqr else 0 in
      let severity := _calculate_iqr_severity normalized_distance in
      let confidence := Rmin (normalized_distance / 2) 1 in
      let description :=
        [Lit "Outlier IQR: "; Fixed 2 value; Lit " dépasse la limite ";
         Lit bound_type; Lit " ("; Fixed 2 lower_bound; Lit " - ";
         Fixed 2 upper_bound; Lit ")"] in
      let expected_value := np.median values in
      mv ← getitem (m_values metric) idx;
      anomaly ← BaseDetector._create_anomaly name metric STATISTICAL_OUTLIER
                  severity (mv_timestamp mv) value confidence description
                  (Some expected_value)
                  (<["q1" := VFloat (round q1 2)]>
                   (<["q3" := VFloat (round q3 2)]>
                    (<["iqr" := VFloat (round iqr 2)]>
                     (<["lower_bound" := VFloat (round lower_bound 2)]>
                      (<["upper_bound" := VFloat (round upper_bound 2)]>
                       (<["detection_method" := VStr "iqr"]> ∅))))));
      mret (Some anomaly)).

(** [by_timestamp], a dict filled in insertion order:
    [if ts not in by_timestamp: by_timestamp[ts] = []] and then
    [by_timestamp[ts].append(anomaly)]. *)
Fixpoint group_append (by_timestamp : list (datetime * list Anomaly))
    (ts : datetime) (anomaly : Anomaly) : list (datetime * list Anomaly) :=
  match by_timestamp with
  | [] => [(ts, [anomaly])]
  | (ts', anoms) :: rest =>
      if decide (ts' = ts) then (ts', anoms ++ [anomaly]) :: rest
      else (ts', anoms) :: group_append rest ts anomaly
  end.

(** [max(anoms, key=lambda a: a.confidence)]: the first element whose key
    is the largest; [ValueError] on an empty list. *)
Definition max_by_confidence (anoms : list Anomaly) : M Anomaly :=
  match anoms with
  | [] => raise (ValueError "max() arg is an empty sequence")
  | a :: rest =>
      mret (foldl (fun best x =>
                     if decide (confidence x > confidence best)
                     then x else best) a rest)
  end.

Definition _deduplicate_anomalies (anomalies : list Anomaly)
  : M (list Anomaly) :=
  match anomalies with
  | [] => mret []
  | _ =>
      let by_timestamp :=
        foldl (fun d anomaly => group_append d (timestamp anomaly) anomaly)
              [] anomalies in
      for_append by_timestamp (fun '(ts, anoms) =>
        best ← max_by_confidence anoms;
        mret (Some best))
  end.

Definition detect (self : t) (metric : Metric) : M (list Anomaly) :=
  if negb (enabled self) then mret []
  else if negb (BaseDetector.validate_metric metric 10) then mret []
  else
    let values := get_values_array metric in
    zscore_anomalies ← _detect_zscore_anomalies self metric values;
    iqr_anomalies ← _detect_iqr_anomalies self metric values;
    _deduplicate_anomalies (zscore_anomalies ++ iqr_anomalies).

End StatisticalDetector.

(** ** Strings and the regular expressions of [re.match]

    [re.match(p, s)] is modelled for the patterns made of ordinary
    characters, [.] and a [*] that follows one of these two; any other
    metacharacter puts the pattern outside the model.  A match is anchored at
    the start of [s] and may stop anywhere; [.] takes any character but a
    newline. *)

Module re.

Inductive atom : Type := AChar (c : ascii) | AAny.
Inductive item : Type := One (a : atom) | Star (a : atom).
Definition regex : Type := list item.

Definition is_meta (c : ascii) : bool :=
  bool_decide (c ∈ ["^"; "$"; "*"; "+"; "?"; "{"; "}"; "["; "]"; "\"; "|";
                    "("; ")"]%char).

Definition atom_of (c : ascii) : atom :=
  if decide (c = "."%char) then AAny else AChar c.

Fixpoint compile (p : string) : option regex :=
  match p with
  | EmptyString => Some []
  | String c p' =>
      if is_meta c then None
      else match p' with
           | String "*" p'' => r ← compile p''; Some (Star (atom_of c) :: r)
           | _ => r ← compile p'; Some (One (atom_of c) :: r)
           end
  end.

Definition accepts (a : atom) (c : ascii) : bool :=
  match a with
  | AChar c' => bool_decide (c = c')
  | AAny => negb (bool_decide (c = "010"%char))
  end.

(** Does the regex match some prefix of [s]?  [Star] is tried on zero
    characters first and then on one more character at a time. *)
Fixpoint match_here (r : regex) : string -> bool :=
  match r with
  | [] => fun _ => true
  | One a :: r' => fun s =>
      match s with
      | String c s' => accepts a c && match_here r' s'
      | EmptyString => false
      end
  | Star a :: r' =>
      fix star (s : string) : bool :=
        match_here r' s ||
        match s with
        | String c s' => accepts a c && star s'
        | EmptyString => false
        end
  end.

(** The truth value of [re.match(pattern, s)]. *)
Definition match_ (pattern s : string) : M bool :=
  match compile pattern with
  | Some r => mret (match_here r s)
  | None => raise (OtherError "re: pattern outside the modelled fragment")
  end.

End re.

(** [c in s] for a character [c] *)
Fixpoint contains_char (c : ascii) (s : string) : bool :=
  match s with
  | EmptyString => false
  | String c' s' => bool_decide (c' = c) || contains_char c s'
  end.

(** [s.replace('*', '.*')] *)
Fixpoint replace_star (s : string) : string :=
  match s with
  | EmptyString => EmptyString
  | String c s' =>
      if decide (c = "*"%char) then String "." (String "*" (replace_star s'))
      else String c (replace_star s')
  end.

(** [sub in s] for strings *)
Definition contains (sub s : string) : bool :=
  match String.index 0 sub s with Some _ => true | None => false end.

(** [s.upper()] and [s.lower()], on the ASCII letters. *)
Definition upper_char (c : ascii) : ascii :=
  let n := nat_of_ascii c in
  if decide (97 <= n <= 122)%nat then ascii_of_nat (n - 32) else c.
Definition lower_char (c : ascii) : ascii :=
  let n := nat_of_ascii c in
  if decide (65 <= n <= 90)%nat then ascii_of_nat (n + 32) else c.
Fixpoint map_string (f : ascii -> ascii) (s : string) : string :=
  match s with
  | EmptyString => EmptyString
  | String c s' => String (f c) (map_string f s')
  end.
Definition upper : string -> string := map_string upper_char.
Definition lower : string -> string := map_string lower_char.

(** [d[key] = value] on a dict kept in insertion order: a key that is
    there keeps its place, a new key goes to the end. *)
Fixpoint dict_set {V} (d : list (string * V)) (key : string) (value : V)
  : list (string * V) :=
  match d with
  | [] => [(key, value)]
  | (k, v) :: rest =>
      if decide (k = key) then (k, value) :: rest
      else (k, v) :: dict_set rest key value
  end.

(** ** [detectors/threshold_detector.py] *)

Module ThresholdDetector.

(** The bounds of one metric: a dict from ['critical'], ['warning'],
    ['max'], ['min'], ['max_rate'], ['min_rate'] to floats. *)
Abbreviation Bounds := (gmap string R).

Record t : Type := mk {
  enabled : bool;
  (** [self.thresholds], in the order of the configuration *)
  thresholds : list (string * Bounds)
}.

Definition name : string := "ThresholdDetector".

(** [self.thresholds[metric_name]] when [metric_name in self.thresholds] *)
Definition thresholds_get (self : t) (metric_name : string) : option Bounds :=
  (fun ip : nat * (string * Bounds) => ip.2.2)
    <$> list_find (fun p => p.1 = metric_name) (thresholds self).

(** The loop [for pattern, thresholds in self.thresholds.items()]. *)
Fixpoint match_patterns (items : list (string * Bounds))
    (metric_name : string) : M (option Bounds) :=
  match items with
  | [] => mret None
  | (pattern, thresholds) :: rest =>
      if contains_char "*" pattern then
        let pattern_regex := replace_star pattern in
        matched ← re.match_ pattern_regex metric_name;
        if matched : bool then mret (Some thresholds)
        else match_patterns rest metric_name
      else match_patterns rest metric_name
  end.

Definition _get_metric_thresholds (self : t) (metric_name : string)
  : M (option Bounds) :=
  match thresholds_get self metric_name with
  | Some thresholds => mret (Some thresholds)
  | None => match_patterns (thresholds self) metric_name
  end.

Definition _create_threshold_anomaly (metric : Metric) (value : R)
    (timestamp : datetime) (threshold_value : R) (threshold_type : string)
    (severity : Severity) : M Anomaly :=
  let '(excess, direction) :=
    if bool_decide (threshold_type ∈ ["min"; "min_rate"]%string)
    then (threshold_value - value, "en dessous"%string)
    else (value - threshold_value, "au-dessus"%string) in
  let excess_percent :=
    if decide (threshold_value <> 0) then excess / threshold_value * 100
    else 0 in
  let description :=
    [Lit "Seuil "; Lit (upper threshold_type); Lit " dépassé: valeur=";
     Fixed 2 value; Lit " "; Lit direction; Lit " du seuil=";
     Fixed 2 threshold_value; Lit " (dépassement de ";
     Fixed 1 (Rabs excess_percent); Lit "%)"] in
  let confidence := 1 in
  BaseDetector._create_anomaly name metric THRESHOLD_BREACH severity
    timestamp value confidence description (Some threshold_value)
    (<["threshold_type" := VStr threshold_type]>
     (<["threshold_value" := VFloat threshold_value]>
      (<["excess" := VFloat (round excess 2)]>
       (<["excess_percent" := VFloat (round excess_percent 2)]> ∅)))).

(** [key in thresholds and cmp value thresholds[key]] *)
Definition breached (thresholds : Bounds) (key : string)
    (cmp : R -> R -> bool) (value : R) : option R :=
  match thresholds !! key with
  | Some bound => if cmp value bound then Some bound else None
  | None => None
  end.

Definition _check_thresholds (metric : Metric) (value : R)
    (timestamp : datetime) (thresholds : Bounds) : M (option Anomaly) :=
  let ge x y := bool_decide (x >= y) in
  let gt x y := bool_decide (x > y) in
  let lt x y := bool_decide (x < y) in
  let found threshold_value threshold_type severity :=
    a ← _create_threshold_anomaly metric value timestamp threshold_value
          threshold_type severity;
    mret (Some a) in
  match breached thresholds "critical" ge value with
  | Some b => found b "critical"%string CRITICAL
  | None =>
  match breached thresholds "warning" ge value with
  | Some b => found b "warning"%string HIGH
  | None =>
  match breached thresholds "max" gt value with
  | Some b => found b "max"%string HIGH
  | None =>
  match breached thresholds "min" lt value with
  | Some b => found b "min"%string MEDIUM
  | None =>
  match breached thresholds "max_rate" gt value with
  | Some b => found b "max_rate"%string HIGH
  | None =>
  match breached thresholds "min_rate" lt value with
  | Some b => found b "min_rate"%string MEDIUM
  | None => mret None
  end end end end end end.

Definition detect (self : t) (metric : Metric) : M (list Anomaly) :=
  if negb (enabled self) then mret []
  else if negb (BaseDetector.validate_metric metric 1) then mret []
  else
    metric_thresholds ← _get_metric_thresholds self (m_name metric);
    match metric_thresholds with
    | None => mret []
    | Some thresholds =>
        if decide (thresholds = ∅) then mret []
        else
          for_append (m_values metric) (fun metric_value =>
            _check_thresholds metric (mv_value metric_value)
              (mv_timestamp metric_value) thresholds)
    end.

(** [add_threshold]: the new bounds hold the arguments that are not
    [None]; [self.thresholds[metric_name] = thresholds]. *)
Definition add_threshold (self : t) (metric_name : string)
    (warning critical min_val max_val : option R) : t :=
  let set (key : string) (o : option R) (thresholds : Bounds) : Bounds :=
    match o with
    | Some x => <[key := x]> thresholds
    | None => thresholds
    end in
  let self_thresholds := thresholds self in
  let thresholds : Bounds :=
    set "max" max_val (set "min" min_val
      (set "critical" critical (set "warning" warning ∅))) in
  mk (enabled self) (dict_set self_thresholds metric_name thresholds).

End ThresholdDetector.

(** ** [detectors/pattern_detector.py] *)

Module PatternDetector.

Record t : Type := mk {
  enabled : bool;
  window_size : nat;
  seasonality_period : nat
}.

Definition default_config : t := mk true 24 3600.

Definition name : string := "PatternDetector".

Definition _detect_trend_changes (self : t) (metric : Metric)
    (values : list R) : M (list Anomaly) :=
  gradient ← np.gradient values;
  let window := (window_size self / 2)%nat in
  smoothed_gradient ← np.convolve_valid gradient (np.ones_over window);
  let sign_changes := np.diff (map np.sign smoothed_gradient) in
  let significant_changes :=
    np.where_ (fun d => bool_decide (Rabs d > 0)) sign_changes in
  for_append significant_changes (fun idx =>
    let real_idx := (idx + window / 2 + 1)%nat in
    if decide (length values <= real_idx)%nat then mret None
    else
      value ← getitem values real_idx;
      let before_trend :=
        np.mean (slice gradient (Nat.max 0 (real_idx - 5)) real_idx) in
      let after_trend :=
        np.mean (slice gradient real_idx
                   (Nat.min (length gradient) (real_idx + 5))) in
      let found (trend_type : string) (severity : Severity)
        : M (option Anomaly) :=
        let description :=
          [Lit "Changement de tendance détecté: "; Lit trend_type] in
        let confidence :=
          Rmin (Rabs (after_trend - before_trend) / np.std gradient) 1 in
        mv ← getitem (m_values metric) real_idx;
        anomaly ← BaseDetector._create_anomaly name metric PATTERN_ANOMALY
                    severity (mv_timestamp mv) value confidence description
                    None
                    (<["trend_before" := VFloat (round before_trend 4)]>
                     (<["trend_after" := VFloat (round after_trend 4)]>
                      (<["trend_type" := VStr trend_type]>
                       (<["detection_method" := VStr "trend_change"]> ∅))));
        mret (Some anomaly) in
      if decide (before_trend > 0 /\ after_trend < 0)
      then found "hausse vers baisse"%string MEDIUM
      else if decide (before_trend < 0 /\ after_trend > 0)
      then found "baisse vers hausse"%string MEDIUM
      else mret None).

(** [ma[i]]: the mean of [values[:i+1]] while [i < window], then the mean
    of the [window] values before [i]. *)
Definition _calculate_moving_average (values : list R) (window : nat)
  : list R :=
  imap (fun i _ =>
          if decide (i < window)%nat then np.mean (slice values 0 (i + 1))
          else np.mean (slice values (i - window) i)) values.

Definition _calculate_moving_std (values : list R) (window : nat)
  : list R :=
  imap (fun i _ =>
          if decide (i < window)%nat then np.std (slice values 0 (i + 1))
          else np.std (slice values (i - window) i)) values.

(** One iteration of [for i in range(start_idx, len(values))]. *)
Definition ma_body (metric : Metric) (values ma ma_std : list R) (i : nat)
  : M (option Anomaly) :=
  value ← getitem values i;
  expected ← getitem ma i;
  std ← getitem ma_std i;
  if decide (std = 0) then mret None
  else
    let deviation := Rabs (value - expected) / std in
    if decide (deviation > 25 / 10) then
      let severity :=
        if decide (deviation > 4) then HIGH
        else if decide (deviation > 3) then MEDIUM
        else LOW in
      let confidence := Rmin (deviation / 5) 1 in
      let description :=
        [Lit "Déviation du pattern normal: valeur="; Fixed 2 value;
         Lit ", attendu≈"; Fixed 2 expected; Lit " (écart de ";
         Fixed 2 deviation; Lit "σ)"] in
      mv ← getitem (m_values metric) i;
      anomaly ← BaseDetector._create_anomaly name metric PATTERN_ANOMALY
                  severity (mv_timestamp mv) value confidence description
                  (Some expected)
                  (<["deviation_sigma" := VFloat (round deviation 2)]>
                   (<["moving_average" := VFloat (round expected 2)]>
                    (<["moving_std" := VFloat (round std 2)]>
                     (<["detection_method" := VStr "moving_average"]> ∅))));
      mret (Some anomaly)
    else mret None.

Definition _detect_moving_average_deviations (self : t) (metric : Metric)
    (values : list R) : M (list Anomaly) :=
  let ma := _calculate_moving_average values (window_size self) in
  let ma_std := _calculate_moving_std values (window_size self) in
  let start_idx := window_size self in
  for_append (range start_idx (length values))
    (ma_body metric values ma ma_std).

Definition detect (self : t) (metric : Metric) : M (list Anomaly) :=
  if negb (enabled self) then mret []
  else
    let min_points := (window_size self * 2)%nat in
    if negb (BaseDetector.validate_metric metric min_points) then mret []
    else
      let values := get_values_array metric in
      trend_anomalies ← _detect_trend_changes self metric values;
      ma_anomalies ← _detect_moving_average_deviations self metric values;
      mret (trend_anomalies ++ ma_anomalies).

End PatternDetector.

(** ** [Anomaly.to_dict] and [Anomaly.from_dict] *)

Definition AnomalyType_value (k : AnomalyType) : string :=
  match k with
  | SPIKE => "spike"
  | DROP => "drop"
  | STATISTICAL_OUTLIER => "statistical_outlier"
  | THRESHOLD_BREACH => "threshold_breach"
  | PATTERN_ANOMALY => "pattern_anomaly"
  end.

Definition Severity_value (s : Severity) : string :=
  match s with
  | LOW => "low" | MEDIUM => "medium" | HIGH => "high" | CRITICAL => "critical"
  end.

(** [AnomalyType(v)] and [Severity(v)]: the member with that value. *)
Definition AnomalyType_of (v : PyVal) : M AnomalyType :=
  match v with
  | VStr s =>
      match list_find (fun k => AnomalyType_value k = s)
              [SPIKE; DROP; STATISTICAL_OUTLIER; THRESHOLD_BREACH;
               PATTERN_ANOMALY] with
      | Some (_, k) => mret k
      | None => raise (ValueError "not a valid AnomalyType")
      end
  | _ => raise (ValueError "not a valid AnomalyType")
  end.

Definition Severity_of (v : PyVal) : M Severity :=
  match v with
  | VStr s =>
      match list_find (fun k => Severity_value k = s)
              [LOW; MEDIUM; HIGH; CRITICAL] with
      | Some (_, k) => mret k
      | None => raise (ValueError "not a valid Severity")
      end
  | _ => raise (ValueError "not a valid Severity")
  end.

Definition opt_float (o : option R) : PyVal :=
  match o with Some x => VFloat x | None => VNone end.
Definition opt_datetime (o : option datetime) : PyVal :=
  match o with Some t => VDatetime t | None => VNone end.
Definition opt_str (o : option string) : PyVal :=
  match o with Some s => VStr s | None => VNone end.

(** [to_dict]: [asdict(self)], the two enums replaced by their values, the
    timestamp by its ISO string, and [deviation_percent] when there is one. *)
Definition to_dict (a : Anomaly) : PyDict :=
  let data : PyDict :=
    <["metric_name" := VStr (metric_name a)]>
    (<["anomaly_type" := VStr (AnomalyType_value (anomaly_type a))]>
    (<["severity" := VStr (Severity_value (severity a))]>
    (<["timestamp" := VIso (timestamp a)]>
    (<["value" := VFloat (value a)]>
    (<["detector_name" := VStr (detector_name a)]>
    (<["confidence" := VFloat (confidence a)]>
    (<["expected_value" := opt_float (expected_value a)]>
    (<["description" := VText (description a)]>
    (<["metadata" := VDict (metadata a)]>
    (<["labels" := VLabels (labels a)]>
    (<["anomaly_id" := VUuid (anomaly_id a)]>
    (<["start_time" := opt_datetime (start_time a)]>
    (<["end_time" := opt_datetime (end_time a)]>
    (<["llm_validated" := VBool (llm_validated a)]>
    (<["llm_status" := opt_str (llm_status a)]> ∅))))))))))))))) in
  match deviation a with
  | Some d => <["deviation_percent" := VFloat (round d 2)]> data
  | None => data
  end.

(** [data[key]] *)
Definition item (data : PyDict) (key : string) : M PyVal :=
  match data !! key with
  | Some v => mret v
  | None => raise (KeyError key)
  end.

(** The keyword arguments of the dataclass constructor.  Python stores
    whatever it is given; here a field has a type, and a value of another
    type raises [TypeError]. *)
Definition kw_required {A} (data : PyDict) (key : string)
    (conv : PyVal -> option A) : M A :=
  match data !! key with
  | Some v => match conv v with
              | Some x => mret x
              | None => raise (TypeError "field of an unexpected type")
              end
  | None => raise (TypeError "missing required argument")
  end.

Definition kw_default {A} (data : PyDict) (key : string)
    (conv : PyVal -> option A) (dflt : M A) : M A :=
  match data !! key with
  | Some v => match conv v with
              | Some x => mret x
              | None => raise (TypeError "field of an unexpected type")
              end
  | None => dflt
  end.

Definition as_str (v : PyVal) : option string :=
  match v with VStr s => Some s | _ => None end.
Definition as_float (v : PyVal) : option R :=
  match v with VFloat x => Some x | _ => None end.
Definition as_opt_float (v : PyVal) : option (option R) :=
  match v with VFloat x => Some (Some x) | VNone => Some None | _ => None end.
Definition as_opt_datetime (v : PyVal) : option (option datetime) :=
  match v with
  | VDatetime t => Some (Some t) | VNone => Some None | _ => None
  end.
Definition as_text (v : PyVal) : option fstring :=
  match v with VText t => Some t | VStr s => Some [Lit s] | _ => None end.
Definition as_dict (v : PyVal) : option PyDict :=
  match v with VDict d => Some d | _ => None end.
Definition as_labels (v : PyVal) : option Labels :=
  match v with VLabels l => Some l | _ => None end.
Definition as_uuid (v : PyVal) : option uuid :=
  match v with VUuid u => Some u | _ => None end.

Definition allowed_keys : list string :=
  ["metric_name"; "anomaly_type"; "severity"; "timestamp"; "value";
   "detector_name"; "confidence"; "expected_value"; "description";
   "metadata"; "labels"; "anomaly_id"; "start_time"; "end_time"].

Definition from_dict (data : PyDict) : M Anomaly :=
  v ← item data "anomaly_type";
  anomaly_type ← AnomalyType_of v;
  v ← item data "severity";
  severity ← Severity_of v;
  v ← item data "timestamp";
  timestamp ← match v with
              | VIso t => mret t
              | _ => raise (ValueError "Invalid isoformat string")
              end;
  let filtered : PyDict :=
    filter (fun kv => kv.1 ∈ allowed_keys) data in
  metric_name ← kw_required filtered "metric_name" as_str;
  value ← kw_required filtered "value" as_float;
  detector_name ← kw_required filtered "detector_name" as_str;
  confidence ← kw_default filtered "confidence" as_float (mret 0);
  expected_value ← kw_default filtered "expected_value" as_opt_float (mret None);
  description ← kw_default filtered "description" as_text (mret []);
  metadata ← kw_default filtered "metadata" as_dict (mret ∅);
  labels ← kw_default filtered "labels" as_labels (mret ∅);
  anomaly_id ← kw_default filtered "anomaly_id" as_uuid uuid4;
  start_time ← kw_default filtered "start_time" as_opt_datetime (mret None);
  end_time ← kw_default filtered "end_time" as_opt_datetime (mret None);
  post_init (mkAnomaly metric_name anomaly_type severity timestamp value
               detector_name confidence expected_value description metadata
               labels anomaly_id start_time end_time false None).

(** The truth value of a Python object. *)
Definition truthy (v : PyVal) : bool :=
  match v with
  | VNone => false
  | VBool b => b
  | VFloat x => bool_decide (x <> 0)
  | VStr s => bool_decide (s <> EmptyString)
  | VText t => existsb (fun p => match p with
                                 | Lit s => bool_decide (s <> EmptyString)
                                 | Fixed _ _ => true
                                 end) t
  | VIso _ | VDatetime _ | VUuid _ => true
  | VLabels l => bool_decide (l <> ∅)
  | VDict d => bool_decide (size d <> 0%nat)
  end.

(** [d.get(key)] and [d.get(key, dflt)] *)
Definition get (d : PyDict) (key : string) : PyVal :=
  default VNone (d !! key).
Definition get_or (d : PyDict) (key : string) (dflt : PyVal) : PyVal :=
  default dflt (d !! key).

(** [DETECTOR_TO_CATEGORY] and [ANOMALY_TYPE_TO_DETECTOR]; the second dict
    has no entry for [AnomalyType.DROP]. *)
Definition DETECTOR_TO_CATEGORY : gmap string string :=
  {[ "spike_detector" := "performance";
     "threshold_detector" := "capacity";
     "statistical_detector" := "performance";
     "pattern_detector" := "availability" ]}%string.

Definition ANOMALY_TYPE_TO_DETECTOR (k : AnomalyType) : option string :=
  match k with
  | SPIKE => Some "spike_detector"
  | THRESHOLD_BREACH => Some "threshold_detector"
  | STATISTICAL_OUTLIER => Some "statistical_detector"
  | PATTERN_ANOMALY => Some "pattern_detector"
  | DROP => None
  end%string.

(** [Anomaly.to_orchestrator_dict].  No code gives an anomaly an attribute
    [llm_analysis], so [hasattr(self, 'llm_analysis')] is false; [llm_status]
    and [llm_validated] are fields of the dataclass.  A [datetime] is always
    true, so [self.start_time or self.timestamp] is [start_time] unless it
    is [None]. *)
Definition to_orchestrator_dict (a : Anomaly) : PyDict :=
  let detector :=
    default (detector_name a) (ANOMALY_TYPE_TO_DETECTOR (anomaly_type a)) in
  let result : PyDict :=
    <["anomaly_id" := VUuid (anomaly_id a)]>
    (<["source" := VStr "metrics"]>
    (<["metric_name" := VStr (metric_name a)]>
    (<["labels" := VLabels (labels a)]>
    (<["detector" := VStr detector]>
    (<["severity" := VStr (Severity_value (severity a))]>
    (<["description" :=
         if truthy (VText (description a)) then VText (description a)
         else VText [Lit (AnomalyType_value (anomaly_type a));
                     Lit " detected"]]>
    (<["observed_value" := VFloat (value a)]>
    (<["expected_value" := opt_float (expected_value a)]>
    (<["threshold" := get (metadata a) "threshold"]>
    (<["confidence" := VFloat (round (confidence a) 2)]>
    (<["start_time" := VIso (default (timestamp a) (start_time a))]>
    (<["end_time" := VIso (default (timestamp a) (end_time a))]>
    (<["context" :=
         VDict (<["metric_type" :=
                    get_or (metadata a) "metric_type" (VStr "unknown")]>
                (<["unit" := get_or (metadata a) "unit" (VStr "")]>
                 (<["lookback_window" :=
                      get_or (metadata a) "lookback_window" (VStr "")]>
                  ∅)))]>
    (<["suggested_category" :=
         VStr (default "unknown"%string (DETECTOR_TO_CATEGORY !! detector))]>
     ∅)))))))))))))) in
  let result :=
    match llm_status a with
    | Some s => <["llm_status" := VStr s]> result
    | None => result
    end in
  let result := <["llm_validated" := VBool (llm_validated a)]> result in
  if truthy (get (metadata a) "llm_analysis")
  then <["llm_analysis" := get (metadata a) "llm_analysis"]> result
  else result.

(** ** [utils/llm_client.py] *)

Module LLMClient.

(** The prompt is a fixed text around seven entries of the anomaly dict. *)
Definition prompt : Type := list PyVal.

Record t : Type := mk {
  enabled : bool;
  model : string;
  (** [self.client.chat.completions.create(model=..., messages=...)]
      and then [.choices[0].message.content]: the remote service *)
  chat_completions_create : string -> prompt -> M string
}.

Definition DEFAULT_MODEL : string := "openai/gpt-oss-120b".
Definition FALLBACK_MODEL : string := "openai/gpt-oss-120b".

Definition _build_validation_prompt (anomaly : PyDict) : prompt :=
  [get_or anomaly "metric_name" (VStr "unknown");
   get_or anomaly "anomaly_type" (VStr "unknown");
   get_or anomaly "value" (VStr "N/A");
   get_or anomaly "expected_value" (VStr "N/A");
   get_or anomaly "severity" (VStr "unknown");
   get_or anomaly "confidence" (VStr "N/A");
   get_or anomaly "description" (VStr "N/A")].

Definition _call_model (self : t) (p : prompt) (model_name : string)
  : M PyDict :=
  llm_response ← chat_completions_create self model_name p;
  mret (<["llm_validation" := VBool true]>
        (<["llm_analysis" := VStr llm_response]>
         (<["llm_model" := VStr model_name]> ∅))).

Definition validate_anomaly (self : t) (anomaly_dict : PyDict) : M PyDict :=
  if negb (enabled self)
  then mret (<["llm_validation" := VNone]> (<["llm_analysis" := VNone]> ∅))
  else
    let p := _build_validation_prompt anomaly_dict in
    try_except (_call_model self p (model self)) (fun e =>
      if contains "model_decommissioned" (exn_str e)
         || contains "model_not_found" (exn_str e)
      then
        try_except (_call_model self p FALLBACK_MODEL) (fun e2 =>
          mret (<["llm_validation" := VBool false]>
                (<["llm_error" := VStr (exn_str e2)]> ∅)))
      else
        mret (<["llm_validation" := VBool false]>
              (<["llm_error" := VStr (exn_str e)]> ∅))).

End LLMClient.

(** ** [detectors/llm_validator.py] *)

Module LLMValidator.

Record t : Type := mk {
  enabled : bool;
  (** [self.llm_client]: any object with a [validate_anomaly] method *)
  llm_client : option (PyDict -> M PyDict)
}.

(** [get_llm_client()]: the client when it is enabled, else [None]. *)
Definition get_llm_client (c : LLMClient.t)
  : option (PyDict -> M PyDict) :=
  if LLMClient.enabled c then Some (LLMClient.validate_anomaly c) else None.

(** [LLMValidator(config)]: without a client the validator is disabled. *)
Definition init (config_enabled : bool)
    (client : option (PyDict -> M PyDict)) : t :=
  match client with
  | Some _ => mk config_enabled client
  | None => mk false client
  end.

Definition _should_keep_anomaly (anomaly : PyDict) : M bool :=
  if negb (truthy (get anomaly "llm_analysis")) then mret true
  else
    match get anomaly "llm_analysis" with
    | VStr s =>
        let analysis := lower s in
        mret (negb (existsb (fun indicator => contains indicator analysis)
                      ["non"; "false positive"; "probably not";
                       "unlikely"]%string))
    | _ => raise (OtherError "object has no attribute 'lower'")
    end.

Definition validate_anomalies (self : t) (anomalies : list Anomaly)
    (keep_all : bool) : M (list PyDict) :=
  if negb (enabled self) then mret []
  else
    match llm_client self with
    | None => mret []
    | Some client =>
        match anomalies with
        | [] => mret []
        | _ =>
            for_append anomalies (fun anomaly =>
              let anomaly_dict := to_dict anomaly in
              try_except
                (llm_analysis ← client anomaly_dict;
                 let enriched : PyDict :=
                   <["llm_model" :=
                       get_or llm_analysis "llm_model"
                         (VStr "mixtral-8x7b-32768")]>
                   (<["llm_analysis" := get llm_analysis "llm_analysis"]>
                    (<["llm_validation" :=
                         get llm_analysis "llm_validation"]> anomaly_dict))
                 in
                 if keep_all then mret (Some enriched)
                 else
                   keep ← _should_keep_anomaly enriched;
                   if keep : bool then mret (Some enriched) else mret None)
                (fun e =>
                   if keep_all then mret (Some anomaly_dict)
                   else mret None))
        end
    end.

End LLMValidator.

(** ** [collectors/prometheus_collector.py] *)

Module PrometheusCollector.

(** The detector objects of [self.detectors]. *)
Inductive Detector : Type :=
| Spike (d : SpikeDetector.t)
| Statistical (d : StatisticalDetector.t)
| Threshold (d : ThresholdDetector.t)
| Pattern (d : PatternDetector.t).

(** [detector.detect(metric)] *)
Definition detect (detector : Detector) (metric : Metric)
  : M (list Anomaly) :=
  match detector with
  | Spike d => SpikeDetector.detect d metric
  | Statistical d => StatisticalDetector.detect d metric
  | Threshold d => ThresholdDetector.detect d metric
  | Pattern d => PatternDetector.detect d metric
  end.

Record DetectorsConfig : Type := mkConfig {
  spike_detector : SpikeDetector.t;
  statistical_detector : StatisticalDetector.t;
  threshold_detector : ThresholdDetector.t;
  pattern_detector : PatternDetector.t
}.

Definition _initialize_detectors (config : DetectorsConfig)
  : list Detector :=
  (if SpikeDetector.enabled (spike_detector config)
   then [Spike (spike_detector config)] else [])
  ++ (if StatisticalDetector.enabled (statistical_detector config)
      then [Statistical (statistical_detector config)] else [])
  ++ (if ThresholdDetector.enabled (threshold_detector config)
      then [Threshold (threshold_detector config)] else [])
  ++ (if PatternDetector.enabled (pattern_detector config)
      then [Pattern (pattern_detector config)] else []).

Record t : Type := mk {
  lookback_window : nat;
  (** the [name] entries of [metrics_to_monitor] *)
  metrics_to_monitor : list string;
  (** [self.prom_client.get_metric_range(query, start, end, step)] *)
  get_metric_range : string -> M (option Metric);
  detectors : list Detector;
  llm_validator : LLMValidator.t
}.

Definition _collect_metric (self : t) (metric_name : string)
  : M (option Metric) :=
  try_except (get_metric_range self metric_name) (fun e => mret None).

Definition _detect_anomalies (self : t) (metric : Metric)
  : M (list Anomaly) :=
  for_extend (detectors self) (fun detector =>
    try_except (detect detector metric) (fun e => mret [])).

Definition _enrich_with_llm (self : t) (anomalies : list Anomaly)
  : M (list Anomaly) :=
  enriched ← LLMValidator.validate_anomalies (llm_validator self)
               anomalies true;
  for_append enriched (fun item =>
    anomaly ← from_dict item;
    if truthy (get item "llm_analysis") then
      mret (Some (mkAnomaly (metric_name anomaly) (anomaly_type anomaly)
              (severity anomaly) (timestamp anomaly) (value anomaly)
              (detector_name anomaly) (confidence anomaly)
              (expected_value anomaly) (description anomaly)
              (<["llm_validation" := get item "llm_validation"]>
               (<["llm_analysis" := get item "llm_analysis"]>
                (metadata anomaly)))
              (labels anomaly) (anomaly_id anomaly) (start_time anomaly)
              (end_time anomaly) (llm_validated anomaly)
              (llm_status anomaly)))
    else mret (Some anomaly)).

(** The first stage of [collect_and_analyze]: the loop over the
    configured metrics. *)
Definition detect_all (self : t) : M (list Anomaly) :=
  for_extend (metrics_to_monitor self) (fun metric_name =>
    try_except
      (metric ← _collect_metric self metric_name;
       match metric with
       | None => mret []
       | Some metric =>
           if decide (length (m_values metric) = 0)%nat then mret []
           else _detect_anomalies self metric
       end)
      (fun e => mret [])).

(** The second stage: the optional enrichment. *)
Definition enrich_stage (self : t) (all_anomalies : list Anomaly)
  : M (list Anomaly) :=
  if LLMValidator.enabled (llm_validator self)
     && bool_decide (all_anomalies <> [])
  then try_except (_enrich_with_llm self all_anomalies)
         (fun e => mret all_anomalies)
  else mret all_anomalies.

Definition collect_and_analyze (self : t) : M (list Anomaly) :=
  all_anomalies ← detect_all self;
  enrich_stage self all_anomalies.

End PrometheusCollector.

(** * Vocabulary of the statements

    What follows is not part of the program: these definitions name the
    things the theorems below speak about. *)

(** ** Loops *)

(** The elements a loop appended, from the outcomes of its iterations. *)
Definition appended {B} (os : list (option B)) : list B :=
  omap (fun o => o) os.

(** The trace of a loop that ran to its end: the outcome of each
    iteration, with the state threaded through. *)
Inductive runs {A B} (body : A -> M (option B))
  : list A -> world -> list (option B) -> world -> Prop :=
| runs_nil w : runs body [] w [] w
| runs_cons x xs w o w1 os w2 :
    body x w = (Return o, w1) ->
    runs body xs w1 os w2 ->
    runs body (x :: xs) w (o :: os) w2.

(** ** Anomalies *)

Definition confidence_ok (a : Anomaly) : Prop :=
  0 <= confidence a /\ confidence a <= 1.

(** An anomaly as [BaseDetector._create_anomaly] leaves it. *)
Record constructed (a : Anomaly) : Prop := {
  constructed_confidence : confidence_ok a;
  constructed_labels : labels a = ∅;
  constructed_start : start_time a = None;
  constructed_end : end_time a = None;
  constructed_validated : llm_validated a = false;
  constructed_status : llm_status a = None
}.

(** ** Spikes *)

(** The percent change the loop body computes for a pair, [None] when the
    pair is skipped. *)
Definition change (prev cur : R) : option R :=
  if decide (prev = 0)
  then if decide (cur <> 0) then Some 100 else None
  else Some ((cur - prev) / prev * 100).

(** The anomaly the loop body builds for the change [pct] from [prev] to
    [cur] at the sample [mv], with the identifier [id]. *)
Definition spike_built (self : SpikeDetector.t) (metric : Metric)
    (mv : MetricValue) (prev cur pct : R) (id : uuid) : Anomaly :=
  mkAnomaly (m_name metric)
    (if decide (pct > 0) then SPIKE else DROP)
    (SpikeDetector._calculate_severity (Rabs pct)) (mv_timestamp mv) cur
    SpikeDetector.name
    (Rmin (Rabs pct / 100) 1 * SpikeDetector.sensitivity self) (Some prev)
    (if decide (pct > 0)
     then [Lit "Spike détecté: hausse de "; Fixed 1 pct; Lit "%"]
     else [Lit "Drop détecté: chute de "; Fixed 1 (Rabs pct); Lit "%"])
    (<["percent_change" := VFloat (round pct 2)]>
     (<["previous_value" := VFloat prev]>
      (<["change_magnitude" := VFloat (Rabs pct)]> ∅)))
    ∅ id None None false None.

(** The series of the concrete scenario: one sample a minute. *)
Definition minute (i : Z) : datetime := (60000000 * i)%Z.
Definition sample (i : Z) (v : R) : MetricValue :=
  mkMetricValue (minute i) v ∅.
Definition scenario : Metric :=
  mkMetric "test_metric" GAUGE
    [sample 0 100; sample 1 100; sample 2 100; sample 3 100; sample 4 300;
     sample 5 100; sample 6 100] None.
Definition scenario_config : SpikeDetector.t :=
  SpikeDetector.mk true (8 / 10) 50.

(** ** Thresholds *)

(** The bounds in the order [_check_thresholds] tries them, with the
    severity each one gives. *)
Definition check_order : list (string * Severity) :=
  [("critical", CRITICAL); ("warning", HIGH); ("max", HIGH);
   ("min", MEDIUM); ("max_rate", HIGH); ("min_rate", MEDIUM)]%string.

(** When a bound is breached: [critical] and [warning] from the bound on,
    [max] and [max_rate] above the bound, [min] and [min_rate] under it. *)
Definition breaches (key : string) (value bound : R) : Prop :=
  if bool_decide (key ∈ ["critical"; "warning"]%string) then value >= bound
  else if bool_decide (key ∈ ["max"; "max_rate"]%string) then value > bound
  else value < bound.

#[global] Instance breaches_dec key value bound :
  Decision (breaches key value bound).
Proof. unfold breaches. repeat case_bool_decide; apply _. Defined.

(** A configured bound that the value breaches. *)
Definition fires (thresholds : gmap string R) (value : R)
    (entry : string * Severity) : Prop :=
  match thresholds !! entry.1 with
  | Some bound => breaches entry.1 value bound
  | None => False
  end.

#[global] Instance fires_dec thresholds value entry :
  Decision (fires thresholds value entry).
Proof. unfold fires. destruct (thresholds !! entry.1); apply _. Defined.

(** A labelled sample above its critical bound. *)
Definition labelled_metric : Metric :=
  mkMetric "cpu_usage" GAUGE
    [mkMetricValue 0%Z 95 {["instance" := "localhost:8080"]}] None.
Definition labelled_config : ThresholdDetector.t :=
  ThresholdDetector.mk true [("cpu_usage"%string, {["critical" := 90]})].

(** ** Patterns of metric names *)






(** The expansion of [pattern] is in the modelled fragment and
    [re.match] finds it at the start of [name]. *)
Definition prefix_matched (pattern name : string) : Prop :=
  exists r, re.compile (replace_star pattern) = Some r /\
            re.match_here r name = true.

#[global] Instance prefix_matched_dec pattern name :
  Decision (prefix_matched pattern name).
Proof.
  unfold prefix_matched.
  destruct (re.compile (replace_star pattern)) as [r|];
    [destruct (re.match_here r name) eqn:Hm|]; [left|right|right].
  - by exists r.
  - intros (r' & [= <-] & Hm'). congruence.
  - by intros (r' & [=] & _).
Defined.

(** An entry of the configuration that resolves [name] by its pattern. *)
Definition wildcard_hit (name : string) (entry : string * gmap string R)
  : Prop :=
  contains_char "*" entry.1 = true /\ prefix_matched entry.1 name.

#[global] Instance wildcard_hit_dec name entry :
  Decision (wildcard_hit name entry).
Proof. unfold wildcard_hit. apply _. Defined.

(** Every wildcard pattern of the configuration expands to a regex of the
    modelled fragment. *)
Definition in_fragment (items : list (string * gmap string R)) : Prop :=
  forall pattern thresholds,
    (pattern, thresholds) ∈ items ->
    contains_char "*" pattern = true ->
    is_Some (re.compile (replace_star pattern)).

Definition cpu_config : ThresholdDetector.t :=
  ThresholdDetector.mk true
    [("memory_usage"%string, {["max" := 16]});
     ("cpu*"%string, {["warning" := 70; "critical" := 90]} : gmap string R)].

(** ** Deduplication *)

(** [by_timestamp.get(ts)] *)
Fixpoint group_of (g : list (datetime * list Anomaly)) (ts : datetime)
  : option (list Anomaly) :=
  match g with
  | [] => None
  | (ts', anoms) :: rest =>
      if decide (ts' = ts) then Some anoms else group_of rest ts
  end.

Definition with_timestamp (ts : datetime) (l : list Anomaly) : list Anomaly :=
  filter (fun a => timestamp a = ts) l.

Definition nonempty (l : list Anomaly) : option (list Anomaly) :=
  match l with [] => None | _ => Some l end.

(** [g] is the dict [by_timestamp] after the anomalies [l] went in: the
    keys are distinct, and the entry of a timestamp holds the anomalies of
    [l] with that timestamp, in the order of [l]. *)
Definition grouped (g : list (datetime * list Anomaly)) (l : list Anomaly)
  : Prop :=
  NoDup g.*1 /\ forall ts, group_of g ts = nonempty (with_timestamp ts l).

(** [best] is an anomaly of the entry that no other one of the entry
    exceeds in confidence. *)
Definition best_of (entry : datetime * list Anomaly) (best : Anomaly)
  : Prop :=
  best ∈ entry.2 /\
  forall b, b ∈ entry.2 -> confidence b <= confidence best.


(** ** Deviation from the moving average *)





(** ** Serialisation and enrichment *)

(** The anomaly [from_dict] rebuilds: the two LLM fields are not among the
    keys it keeps and take their defaults. *)
Definition rebuilt (a : Anomaly) : Anomaly :=
  mkAnomaly (metric_name a) (anomaly_type a) (severity a) (timestamp a)
    (value a) (detector_name a) (confidence a) (expected_value a)
    (description a) (metadata a) (labels a) (anomaly_id a) (start_time a)
    (end_time a) false None.

(** The entries of [to_dict a] that [from_dict] reads. *)
Definition entries (a : Anomaly) : list (string * PyVal) :=
  [("metric_name", VStr (metric_name a));
   ("anomaly_type", VStr (AnomalyType_value (anomaly_type a)));
   ("severity", VStr (Severity_value (severity a)));
   ("timestamp", VIso (timestamp a));
   ("value", VFloat (value a));
   ("detector_name", VStr (detector_name a));
   ("confidence", VFloat (confidence a));
   ("expected_value", opt_float (expected_value a));
   ("description", VText (description a));
   ("metadata", VDict (metadata a));
   ("labels", VLabels (labels a));
   ("anomaly_id", VUuid (anomaly_id a));
   ("start_time", opt_datetime (start_time a));
   ("end_time", opt_datetime (end_time a))]%string.

(** [item] carries the entries of [to_dict a] under the keys that
    [from_dict] keeps. *)
Definition carries (a : Anomaly) (item : PyDict) : Prop :=
  forall k v, (k, v) ∈ entries a -> item !! k = Some v.

(** A client whose call fails: it raises, or it answers without an
    analysis (what [LLMClient.validate_anomaly] returns when the remote call
    failed). *)
Definition always_fails (client : PyDict -> M PyDict) : Prop :=
  forall d w,
    (exists e w', client d w = (Raise e, w')) \/
    (exists r w', client d w = (Return r, w') /\
                  truthy (get r "llm_analysis") = false).

(** What [validate_anomalies] hands back for [a] when the call failed: a
    dict with the entries of [to_dict a] and no analysis. *)
Definition unenriched (a : Anomaly) (item : PyDict) : Prop :=
  carries a item /\ truthy (get item "llm_analysis") = false.

(** A collector on the series of the scenario, with an enricher that times
    out on every call. *)
Definition failing_collector : PrometheusCollector.t :=
  PrometheusCollector.mk 3600 ["test_metric"%string]
    (fun _ => mret (Some scenario))
    [PrometheusCollector.Spike scenario_config]
    (LLMValidator.init true (Some (fun _ => raise (OtherError "timeout")))).


(** ** Vocabulary of the further properties *)

(** An anomaly that carries the two LLM fields. *)
Definition validated_anomaly : Anomaly :=
  mkAnomaly "m" SPIKE HIGH 0%Z 3 "SpikeDetector" (1 / 2) (Some 1) [] ∅ ∅
    0%nat None None true (Some "ok"%string).

(** ** Enrichment *)

(** [a] with another [metadata]. *)
Definition with_metadata (a : Anomaly) (md : PyDict) : Anomaly :=
  mkAnomaly (metric_name a) (anomaly_type a) (severity a) (timestamp a)
    (value a) (detector_name a) (confidence a) (expected_value a)
    (description a) md (labels a) (anomaly_id a) (start_time a) (end_time a)
    (llm_validated a) (llm_status a).

(** What the enrichment makes of [a]: [a] itself, or [a] with the analysis
    and the verdict of the LLM added to its metadata. *)
Definition enriched_from (a b : Anomaly) : Prop :=
  b = a \/
  exists analysis validation,
    truthy analysis = true /\
    b = with_metadata a (<["llm_validation" := validation]>
                         (<["llm_analysis" := analysis]> (metadata a))).

(** The three dicts [LLMClient.validate_anomaly] can return. *)
Definition llm_disabled : PyDict :=
  <["llm_validation" := VNone]> (<["llm_analysis" := VNone]> ∅).
Definition llm_answer (analysis model : string) : PyDict :=
  <["llm_validation" := VBool true]>
  (<["llm_analysis" := VStr analysis]> (<["llm_model" := VStr model]> ∅)).
Definition llm_failure (error : string) : PyDict :=
  <["llm_validation" := VBool false]> (<["llm_error" := VStr error]> ∅).

(** A validator whose client times out, and one whose client answers. *)
Definition timing_out : LLMValidator.t :=
  LLMValidator.mk true (Some (fun _ => raise (OtherError "timeout"))).
Definition answering : LLMValidator.t :=
  LLMValidator.mk true
    (Some (fun _ => mret (llm_answer "real anomaly" "openai/gpt-oss-120b"))).
Definition answering_collector : PrometheusCollector.t :=
  PrometheusCollector.mk 3600 ["test_metric"%string]
    (fun _ => mret (Some scenario))
    [PrometheusCollector.Spike scenario_config] answering.

(** ** Detectors *)

(** [a] reports one sample of the series: its name, the timestamp and the
    value of the sample. *)
Definition flags (metric : Metric) (a : Anomaly) : Prop :=
  metric_name a = m_name metric /\
  exists mv, mv ∈ m_values metric /\
             timestamp a = mv_timestamp mv /\ value a = mv_value mv.

(** The timestamps and values of samples, and of anomalies. *)
Definition samples_of (l : list MetricValue) : list (datetime * R) :=
  (fun mv => (mv_timestamp mv, mv_value mv)) <$> l.
Definition readings (l : list Anomaly) : list (datetime * R) :=
  (fun a => (timestamp a, value a)) <$> l.

(** The order of the severities. *)
Definition Severity_rank (s : Severity) : nat :=
  match s with LOW => 0 | MEDIUM => 1 | HIGH => 2 | CRITICAL => 3 end.

Definition narrow_config : PatternDetector.t := PatternDetector.mk true 1 3600.

(** [by_timestamp] for anomalies with distinct timestamps: one entry for
    each, in their order. *)
Definition singletons (l : list Anomaly) : list (datetime * list Anomaly) :=
  (fun a => (timestamp a, [a])) <$> l.

(** ** Scaling a series *)



(** ** The two statistical tests *)







(** ** What goes to the orchestrator *)

(** The class name of the detector that builds anomalies of a type. *)
Definition detector_of (k : AnomalyType) : string :=
  match k with
  | SPIKE | DROP => SpikeDetector.name
  | STATISTICAL_OUTLIER => StatisticalDetector.name
  | THRESHOLD_BREACH => ThresholdDetector.name
  | PATTERN_ANOMALY => PatternDetector.name
  end.

(** An anomaly as a detector returns it. *)
Definition emitted (a : Anomaly) : Prop :=
  constructed a /\
  detector_name a = detector_of (anomaly_type a) /\
  metadata a !! "threshold" = None.

(** The detector and the category [to_orchestrator_dict] gives for a type
    of anomaly built by the detectors. *)
Definition routing (k : AnomalyType) : string * string :=
  match k with
  | SPIKE => ("spike_detector", "performance")
  | DROP => ("SpikeDetector", "unknown")
  | STATISTICAL_OUTLIER => ("statistical_detector", "performance")
  | THRESHOLD_BREACH => ("threshold_detector", "capacity")
  | PATTERN_ANOMALY => ("pattern_detector", "availability")
  end%string.

(** * Properties *)

(** ** The monad and its loops *)

Section Loops.
Context {A B : Type}.
Implicit Types (body : A -> M (option B)) (xs : list A).

Lemma for_append_runs body xs w os w' :
  runs body xs w os w' ->
  for_append xs body w = (Return (appended os), w').
Proof.
  induction 1 as [|x xs w o w1 os w2 Hx _ IH]; [done|].
  cbn. unfold mbind, M_bind, bind. rewrite Hx, IH. destruct o; done.
Qed.

Lemma for_append_inv body xs w l w' :
  for_append xs body w = (Return l, w') ->
  exists os, runs body xs w os w' /\ l = appended os.
Proof.
  revert w l w'. induction xs as [|x xs IH]; intros w l w' H.
  - cbn in H. injection H as <- <-. exists []. split; [constructor|done].
  - cbn in H. unfold mbind, M_bind, bind in H.
    destruct (body x w) as [[o|e] w1] eqn:Hx; [|done].
    destruct (for_append xs body w1) as [[rest|e] w2] eqn:Hr; [|done].
    destruct (IH _ _ _ Hr) as (os & Hruns & ->).
    injection H as <- <-. exists (o :: os). split.
    + econstructor; eauto.
    + by destruct o.
Qed.

Lemma runs_length body xs w os w' :
  runs body xs w os w' -> length os = length xs.
Proof. induction 1; cbn; congruence. Qed.

(** When every iteration returns, so does the loop. *)
Lemma runs_total body xs :
  (forall x w, x ∈ xs -> exists o w', body x w = (Return o, w')) ->
  forall w, exists os w', runs body xs w os w'.
Proof.
  induction xs as [|x xs IH]; intros Hb w.
  - exists [], w. constructor.
  - destruct (Hb x w) as (o & w1 & Hx); [left|].
    destruct (IH (fun y w Hy => Hb y w (list_elem_of_further _ _ _ Hy)) w1)
      as (os & w2 & Hr).
    exists (o :: os), w2. econstructor; eauto.
Qed.

(** What holds of every iteration holds along the trace. *)
Lemma runs_lookup body xs w os w' i x :
  runs body xs w os w' -> xs !! i = Some x ->
  exists o w1 w2, os !! i = Some o /\ body x w1 = (Return o, w2).
Proof.
  intros H. revert i. induction H as [|y xs w o w1 os w2 Hy _ IH]; intros i Hi.
  - done.
  - destruct i as [|i]; cbn in *.
    + injection Hi as ->. eauto.
    + eauto.
Qed.

Lemma runs_Forall body xs w os w' (P : B -> Prop) :
  (forall x w o w', body x w = (Return (Some o), w') -> P o) ->
  runs body xs w os w' -> Forall P (appended os).
Proof.
  intros Hb. induction 1 as [|x xs w o w1 os w2 Hx _ IH]; cbn; [done|].
  destruct o as [b|]; cbn; [|done]. constructor; eauto.
Qed.

End Loops.

(** ** The constructor of [Anomaly] *)

Lemma Anomaly_new_ok mn ty sev ts v dn c ev descr md w :
  0 <= c <= 1 ->
  Anomaly_new mn ty sev ts v dn c ev descr md w =
  (Return (mkAnomaly mn ty sev ts v dn c ev descr md ∅ w None None false None),
   S w).
Proof.
  intros Hc. unfold Anomaly_new, post_init, mbind, M_bind, bind, uuid4. cbn.
  destruct (decide _) as [|n]; [done|]. by destruct n.
Qed.

Lemma Anomaly_new_rejects mn ty sev ts v dn c ev descr md w :
  ~ (0 <= c <= 1) ->
  exists e, Anomaly_new mn ty sev ts v dn c ev descr md w = (Raise e, S w).
Proof.
  intros Hc. unfold Anomaly_new, post_init, mbind, M_bind, bind, uuid4. cbn.
  destruct (decide _) as [|n]; [done|]. eauto.
Qed.

Lemma Anomaly_new_inv mn ty sev ts v dn c ev descr md w a w' :
  Anomaly_new mn ty sev ts v dn c ev descr md w = (Return a, w') ->
  0 <= c <= 1 /\ w' = S w /\
  a = mkAnomaly mn ty sev ts v dn c ev descr md ∅ w None None false None.
Proof.
  intros H. destruct (decide (0 <= c <= 1)) as [Hc|Hc].
  - rewrite Anomaly_new_ok in H by done. by injection H as <- <-.
  - destruct (Anomaly_new_rejects mn ty sev ts v dn c ev descr md w Hc)
      as [e He]. congruence.
Qed.

Lemma getitem_Some {A} (l : list A) i x w :
  l !! i = Some x -> getitem l i w = (Return x, w).
Proof. intros H. unfold getitem. by rewrite H. Qed.

Lemma bind_Return {A B} (c : M A) (k : A -> M B) w a w1 :
  c w = (Return a, w1) -> (c ≫= k) w = k a w1.
Proof. intros H. unfold mbind, M_bind, bind. by rewrite H. Qed.

Lemma bind_Raise {A B} (c : M A) (k : A -> M B) w e w1 :
  c w = (Raise e, w1) -> (c ≫= k) w = (Raise e, w1).
Proof. intros H. unfold mbind, M_bind, bind. by rewrite H. Qed.

Lemma Rmin_unit_interval x : 0 <= x -> 0 <= Rmin x 1 <= 1.
Proof. intros Hx. unfold Rmin. destruct (Rle_dec x 1); lra. Qed.

Lemma Rdiv_nonneg x y : 0 <= x -> 0 < y -> 0 <= x / y.
Proof. intros Hx Hy. unfold Rdiv. by apply Rle_mult_inv_pos. Qed.

(** ** SpikeDetector *)

Section SpikeFacts.
Import SpikeDetector.

Lemma confidence_in_range (self : t) pct :
  0 <= sensitivity self <= 1 ->
  0 <= Rmin (Rabs pct / 100) 1 * sensitivity self <= 1.
Proof.
  intros Hs.
  assert (0 <= Rmin (Rabs pct / 100) 1 <= 1).
  { apply Rmin_unit_interval. pose proof (Rabs_pos pct). lra. }
  nra.
Qed.

Lemma check_change_run self metric i mv prev cur pct w :
  0 <= sensitivity self <= 1 ->
  m_values metric !! i = Some mv ->
  check_change self metric i prev cur pct w =
  if decide (Rabs pct >= min_change_percent self)
  then (Return (Some (spike_built self metric mv prev cur pct w)), S w)
  else (Return None, w).
Proof.
  intros Hs Hmv. unfold check_change.
  destruct (decide (Rabs pct >= _)); [|done].
  unfold spike_built.
  destruct (decide (pct > 0)).
  all: rewrite (bind_Return _ _ _ _ _ (getitem_Some _ _ _ _ Hmv)).
  all: unfold BaseDetector._create_anomaly.
  all: erewrite bind_Return by (apply Anomaly_new_ok, confidence_in_range, Hs).
  all: done.
Qed.

Lemma body_run self metric i p c w :
  0 <= sensitivity self <= 1 ->
  m_values metric !! i = Some p ->
  m_values metric !! S i = Some c ->
  body self metric (get_values_array metric) (S i) w =
  match change (mv_value p) (mv_value c) with
  | Some pct =>
      if decide (Rabs pct >= min_change_percent self)
      then (Return (Some (spike_built self metric c (mv_value p) (mv_value c)
                            pct w)), S w)
      else (Return None, w)
  | None => (Return None, w)
  end.
Proof.
  intros Hs Hp Hc. unfold body, change.
  assert (get_values_array metric !! i = Some (mv_value p)) as Hp'.
  { unfold get_values_array. by rewrite list_lookup_fmap, Hp. }
  assert (get_values_array metric !! S i = Some (mv_value c)) as Hc'.
  { unfold get_values_array. by rewrite list_lookup_fmap, Hc. }
  replace (S i - 1)%nat with i by lia.
  rewrite (bind_Return _ _ _ _ _ (getitem_Some _ _ _ _ Hp')).
  rewrite (bind_Return _ _ _ _ _ (getitem_Some _ _ _ _ Hc')).
  destruct (decide (mv_value p = 0)); [destruct (decide (mv_value c <> 0))|].
  all: try done.
  all: by apply check_change_run.
Qed.

End SpikeFacts.

Section SpikeTrace.
Import SpikeDetector.

Lemma range_lookup a b i :
  (a + i < b)%nat -> range a b !! i = Some (a + i)%nat.
Proof. intros H. unfold range. apply lookup_seq. lia. Qed.

Lemma range_elem a b x : x ∈ range a b -> (a <= x < b)%nat.
Proof. unfold range. rewrite elem_of_seq. lia. Qed.

Lemma detect_trace self metric w :
  enabled self = true ->
  0 <= sensitivity self <= 1 ->
  exists os w',
    detect self metric w = (Return (appended os), w') /\
    length os = (length (m_values metric) - 1)%nat /\
    forall i p c,
      m_values metric !! i = Some p ->
      m_values metric !! S i = Some c ->
      exists id,
        os !! i = Some
          (match change (mv_value p) (mv_value c) with
           | Some pct =>
               if decide (Rabs pct >= min_change_percent self)
               then Some (spike_built self metric c (mv_value p) (mv_value c)
                            pct id)
               else None
           | None => None
           end).
Proof.
  intros Hen Hs. unfold detect. rewrite Hen. cbn [negb].
  unfold BaseDetector.validate_metric.
  destruct (decide (length (m_values metric) < 2)%nat) as [Hlen|Hlen]; cbn [negb].
  - exists [], w. split; [done|]. split; [cbn; lia|].
    intros i p c Hp Hc. apply lookup_lt_Some in Hp, Hc. lia.
  - set (values := get_values_array metric).
    assert (length values = length (m_values metric)) as Hlv
      by (unfold values, get_values_array; by rewrite length_fmap).
    destruct (runs_total (body self metric values) (range 1 (length values)))
      with (w := w) as (os & w' & Hruns).
    { intros x w0 Hx. apply range_elem in Hx.
      destruct x as [|i]; [lia|].
      destruct (lookup_lt_is_Some_2 (m_values metric) i) as [p Hp]; [lia|].
      destruct (lookup_lt_is_Some_2 (m_values metric) (S i)) as [c Hc]; [lia|].
      unfold values. rewrite (body_run self metric i p c w0 Hs Hp Hc).
      destruct (change _ _); [destruct (decide _)|]; eauto. }
    exists os, w'. split; [by apply for_append_runs|]. split.
    { rewrite (runs_length _ _ _ _ _ Hruns). unfold range.
      rewrite length_seq. lia. }
    intros i p c Hp Hc.
    assert (range 1 (length values) !! i = Some (S i)) as Hi.
    { apply (range_lookup 1). apply lookup_lt_Some in Hc. lia. }
    destruct (runs_lookup _ _ _ _ _ _ _ Hruns Hi) as (o & w1 & w2 & Ho & Hb).
    unfold values in Hb. rewrite (body_run self metric i p c w1 Hs Hp Hc) in Hb.
    exists w1. rewrite Ho. f_equal.
    destruct (change _ _); [destruct (decide _)|]; congruence.
Qed.

End SpikeTrace.

Section SpikeClaims.
Import SpikeDetector.



End SpikeClaims.

Section SpikeScenario.
Import SpikeDetector.

Lemma Rabs_ge x c : x >= c \/ - x >= c -> Rabs x >= c.
Proof. unfold Rabs. destruct (Rcase_abs x); lra. Qed.

Lemma Rabs_not_ge x c : - c < x < c -> ~ Rabs x >= c.
Proof. unfold Rabs. destruct (Rcase_abs x); lra. Qed.

Lemma Rabs_gt_iff x c : Rabs x > c <-> x > c \/ - x > c.
Proof. unfold Rabs. destruct (Rcase_abs x); lra. Qed.

Lemma scenario_output w :
  exists id1 id2 w',
    detect scenario_config scenario w =
    (Return [spike_built scenario_config scenario (sample 4 300) 100 300
               ((300 - 100) / 100 * 100) id1;
             spike_built scenario_config scenario (sample 5 100) 300 100
               ((100 - 300) / 300 * 100) id2], w').
Proof.
  destruct (detect_trace scenario_config scenario w)
    as (os & w' & Hd & Hlen & Hos); [done|cbn; lra|].
  cbn in Hlen.
  do 7 (destruct os as [|? os]; try discriminate Hlen).
  pose proof (Hos 0%nat _ _ eq_refl eq_refl) as [i0 H0].
  pose proof (Hos 1%nat _ _ eq_refl eq_refl) as [i1 H1].
  pose proof (Hos 2%nat _ _ eq_refl eq_refl) as [i2 H2].
  pose proof (Hos 3%nat _ _ eq_refl eq_refl) as [i3 H3].
  pose proof (Hos 4%nat _ _ eq_refl eq_refl) as [i4 H4].
  pose proof (Hos 5%nat _ _ eq_refl eq_refl) as [i5 H5].
  clear Hos. cbn in H0, H1, H2, H3, H4, H5. unfold change in *.
  rewrite (decide_False (P := 100 = 0)) in H0, H1, H2, H3, H5 by lra.
  rewrite (decide_False (P := 300 = 0)) in H4 by lra.
  rewrite decide_False in H0, H1, H2, H5 by (apply Rabs_not_ge; lra).
  rewrite decide_True in H3 by (apply Rabs_ge; lra).
  rewrite decide_True in H4 by (apply Rabs_ge; lra).
  injection H0 as ->. injection H1 as ->. injection H2 as ->.
  injection H3 as ->. injection H4 as ->. injection H5 as ->.
  exists i3, i4, w'. exact Hd.
Qed.

Lemma scenario_spike_fields id :
  let a := spike_built scenario_config scenario (sample 4 300) 100 300
             ((300 - 100) / 100 * 100) id in
  anomaly_type a = SPIKE /\ timestamp a = minute 4 /\ value a = 300 /\
  expected_value a = Some 100 /\ severity a = CRITICAL.
Proof.
  cbn. rewrite decide_True by lra. split_and!; try done.
  unfold _calculate_severity.
  rewrite decide_True; [done|]. apply Rabs_ge. lra.
Qed.

Lemma scenario_drop_fields id :
  let d := spike_built scenario_config scenario (sample 5 100) 300 100
             ((100 - 300) / 300 * 100) id in
  anomaly_type d = DROP /\ timestamp d = minute 5 /\ value d = 100 /\
  expected_value d = Some 300 /\ severity d = LOW.
Proof.
  cbn. rewrite decide_False by lra. split_and!; try done.
  unfold _calculate_severity.
  rewrite !decide_False; [done|apply Rabs_not_ge; lra..].
Qed.

(** C8, as amended.  On the series [100,100,100,100,300,100,100] at
    1-minute spacing with [min_change_percent = 50] the detector returns
    exactly one spike, at the 4th-minute sample, with [value = 300],
    [expected_value = 100] and severity [CRITICAL] (a change of 200%); the
    only other anomaly is the drop back to 100 at the 5th-minute sample. *)
Theorem spike_scenario (w : world) :
  exists a d w',
    detect scenario_config scenario w = (Return [a; d], w') /\
    filter (fun x => anomaly_type x = SPIKE) [a; d] = [a] /\
    timestamp a = minute 4 /\ value a = 300 /\
    expected_value a = Some 100 /\ severity a = CRITICAL /\
    anomaly_type d = DROP /\ timestamp d = minute 5 /\
    value d = 100 /\ expected_value d = Some 300 /\ severity d = LOW.
Proof.
  destruct (scenario_output w) as (id1 & id2 & w' & Ho).
  destruct (scenario_spike_fields id1) as (Ha1 & Ha2 & Ha3 & Ha4 & Ha5).
  destruct (scenario_drop_fields id2) as (Hd1 & Hd2 & Hd3 & Hd4 & Hd5).
  eexists _, _, w'. split; [exact Ho|].
  split_and!; try done.
  rewrite filter_cons_True by done. rewrite filter_cons_False; [done|].
  rewrite Hd1. done.
Qed.

(** C8, refuted as stated: the one spike is at the 4th-minute sample, but
    its severity is not [HIGH]. *)
Lemma spike_scenario_not_high :
  ~ exists l w' a,
      detect scenario_config scenario 0%nat = (Return l, w') /\
      filter (fun x => anomaly_type x = SPIKE) l = [a] /\
      timestamp a = minute 4 /\ value a = 300 /\
      expected_value a = Some 100 /\ severity a = HIGH.
Proof.
  intros (l & w' & a & Hd & Hf & _ & _ & _ & Hsev).
  destruct (scenario_output 0%nat) as (id1 & id2 & w2 & Ho).
  rewrite Ho in Hd. injection Hd as <- <-.
  destruct (scenario_spike_fields id1) as (Ha1 & _ & _ & _ & Ha5).
  destruct (scenario_drop_fields id2) as (Hd1 & _).
  rewrite filter_cons_True in Hf by done.
  rewrite filter_cons_False in Hf by (rewrite Hd1; done).
  injection Hf as <-. congruence.
Qed.

End SpikeScenario.

(** ** What every detector output is made of *)

Lemma bind_inv {A B} (c : M A) (k : A -> M B) w b w' :
  (c ≫= k) w = (Return b, w') ->
  exists a w1, c w = (Return a, w1) /\ k a w1 = (Return b, w').
Proof.
  unfold mbind, M_bind, bind. destruct (c w) as [[a|e] w1]; [eauto|done].
Qed.

Lemma ret_inv {A} (a b : A) w w' :
  (mret a : M A) w = (Return b, w') -> a = b /\ w = w'.
Proof. by intros [= -> ->]. Qed.

Lemma _create_anomaly_constructed name metric ty sev ts v c descr ev md w a w' :
  BaseDetector._create_anomaly name metric ty sev ts v c descr ev md w =
    (Return a, w') ->
  constructed a.
Proof.
  unfold BaseDetector._create_anomaly.
  intros (Hc & _ & ->)%Anomaly_new_inv. by constructor.
Qed.

(** Peel a computation that returned: binds, conditionals, failed lookups. *)
Ltac inv_run H :=
  repeat match type of H with
    | (_ ≫= _) _ = (Return _, _) =>
        let a := fresh "x" in
        let w := fresh "w" in
        let H1 := fresh "Hrun" in
        apply bind_inv in H as (a & w & H1 & H)
    | @mret M _ _ _ _ = (Return _, _) => apply ret_inv in H as [H ?]
    | raise _ _ = (Return _, _) => discriminate H
    | (if decide ?P is left _ then _ else _) _ = _ => destruct (decide P)
    | (let '(_, _) := ?p in _) _ = _ => destruct p eqn:?
    end.

Lemma for_append_Forall {A B} (xs : list A) (body : A -> M (option B))
    (P : B -> Prop) w l w' :
  (forall x w o w', body x w = (Return (Some o), w') -> P o) ->
  for_append xs body w = (Return l, w') -> Forall P l.
Proof.
  intros Hb (os & Hruns & ->)%for_append_inv. by eapply runs_Forall.
Qed.

(** ** ThresholdDetector *)

Section ThresholdFacts.
Import ThresholdDetector.

Lemma _create_threshold_anomaly_run metric v ts bound key sev w :
  exists a,
    _create_threshold_anomaly metric v ts bound key sev w =
      (Return a, S w) /\
    anomaly_type a = THRESHOLD_BREACH /\ severity a = sev /\
    value a = v /\ timestamp a = ts /\
    expected_value a = Some bound /\ confidence a = 1 /\
    metadata a !! "threshold_type" = Some (VStr key) /\
    labels a = ∅ /\ llm_validated a = false /\ llm_status a = None.
Proof.
  unfold _create_threshold_anomaly.
  destruct (bool_decide _); cbn beta iota zeta;
    unfold BaseDetector._create_anomaly;
    rewrite Anomaly_new_ok by lra; eexists; (split; [reflexivity|]);
    cbn; split_and!; done.
Qed.

Lemma breaches_ge key v b :
  key ∈ ["critical"; "warning"]%string -> breaches key v b <-> v >= b.
Proof. intros H. unfold breaches. by rewrite bool_decide_true. Qed.

Lemma breaches_gt key v b :
  key ∈ ["max"; "max_rate"]%string -> breaches key v b <-> v > b.
Proof.
  intros H. unfold breaches.
  rewrite bool_decide_false, bool_decide_true; [done..|].
  intros H'. revert H H'. rewrite !elem_of_cons, !elem_of_nil.
  intros [->|[->|Hk]] [?|[?|Hk']]; done.
Qed.

Lemma breaches_lt key v b :
  key ∈ ["min"; "min_rate"]%string -> breaches key v b <-> v < b.
Proof.
  intros H. unfold breaches.
  rewrite !bool_decide_false; [done|..].
  all: intros H'; revert H H'; rewrite !elem_of_cons, !elem_of_nil.
  all: intros [->|[->|Hk]] [?|[?|Hk']]; done.
Qed.

Lemma fires_iff thresholds v key sev :
  fires thresholds v (key, sev) <->
  exists bound, thresholds !! key = Some bound /\ breaches key v bound.
Proof.
  unfold fires. cbn. destruct (thresholds !! key); naive_solver.
Qed.

End ThresholdFacts.

Section ThresholdFirstMatch.
Import ThresholdDetector.

Ltac step th key sev lem :=
    let b := fresh "b" in
    let E := fresh "E" in
    let C := fresh "C" in
    destruct (th !! key) as [b|] eqn:E; [case_bool_decide as C|];
    [ rewrite (decide_True (P := fires _ _ (key, sev)));
      [cbn; eauto
      |apply fires_iff; eexists; split;
       [exact E|apply lem; [set_solver|exact C]]]
    | rewrite (decide_False (P := fires _ _ (key, sev)))
        by (rewrite fires_iff; intros (? & Hb & Hbr); rewrite E in Hb;
            injection Hb as <-; apply lem in Hbr; [done|set_solver])
    | rewrite (decide_False (P := fires _ _ (key, sev)))
        by (rewrite fires_iff; intros (? & Hb & _); rewrite E in Hb;
            discriminate) ].

Lemma _check_thresholds_first_match (metric : Metric) (v : R) (ts : datetime)
    (thresholds : gmap string R) (w : world) :
  match list_find (fires thresholds v) check_order with
  | Some (_, (key, sev)) =>
      exists a bound,
        _check_thresholds metric v ts thresholds w = (Return (Some a), S w) /\
        thresholds !! key = Some bound /\
        severity a = sev /\
        metadata a !! "threshold_type" = Some (VStr key) /\
        expected_value a = Some bound /\
        value a = v /\ timestamp a = ts /\ confidence a = 1
  | None => _check_thresholds metric v ts thresholds w = (Return None, w)
  end.
Proof.
  assert (forall key sev bound,
            thresholds !! key = Some bound ->
            exists a bound',
              (_create_threshold_anomaly metric v ts bound key sev
                 ≫= λ a0 : Anomaly, mret (Some a0)) w = (Return (Some a), S w) /\
              thresholds !! key = Some bound' /\
              severity a = sev /\
              metadata a !! "threshold_type" = Some (VStr key) /\
              expected_value a = Some bound' /\
              value a = v /\ timestamp a = ts /\ confidence a = 1) as Hfound.
  { intros key sev bound Hb.
    destruct (_create_threshold_anomaly_run metric v ts bound key sev w)
      as (a & Hrun & ? & ? & ? & ? & ? & ? & ? & _).
    exists a, bound. rewrite (bind_Return _ _ _ _ _ Hrun). done. }
  unfold _check_thresholds, breached, check_order.
  cbn [list_find].
  step thresholds "critical"%string CRITICAL breaches_ge.
  all: step thresholds "warning"%string HIGH breaches_ge.
  all: step thresholds "max"%string HIGH breaches_gt.
  all: step thresholds "min"%string MEDIUM breaches_lt.
  all: step thresholds "max_rate"%string HIGH breaches_gt.
  all: step thresholds "min_rate"%string MEDIUM breaches_lt.
  all: done.
Qed.

End ThresholdFirstMatch.

Section ThresholdClaims.
Import ThresholdDetector.

(** C3, as amended.  For one sample, [_check_thresholds] returns at most
    one anomaly: the one of the first bound, in the order critical, warning,
    max, min, max_rate, min_rate, that is configured and breached, and none
    when no bound is.  [critical] and [warning] are breached when
    [value >= bound], [max] and [max_rate] when [value > bound], [min] and
    [min_rate] when [value < bound].  With the bounds
    [{warning: 70, critical: 90}] the value 95 gives severity critical. *)
Theorem threshold_first_match (metric : Metric) (ts : datetime) (w : world) :
  (forall (v : R) (thresholds : gmap string R),
     match list_find (fires thresholds v) check_order with
     | Some (_, (key, sev)) =>
         exists a bound,
           _check_thresholds metric v ts thresholds w =
             (Return (Some a), S w) /\
           thresholds !! key = Some bound /\
           severity a = sev /\
           metadata a !! "threshold_type" = Some (VStr key) /\
           expected_value a = Some bound /\
           value a = v /\ timestamp a = ts /\ confidence a = 1
     | None => _check_thresholds metric v ts thresholds w = (Return None, w)
     end) /\
  (forall key v bound,
     breaches key v bound <->
     ((key ∈ ["critical"; "warning"]%string) /\ v >= bound) \/
     ((key ∈ ["max"; "max_rate"]%string) /\ v > bound) \/
     ((key ∉ ["critical"; "warning"; "max"; "max_rate"]%string) /\
      v < bound)) /\
  (exists a,
     _check_thresholds metric 95 ts {["warning" := 70; "critical" := 90]} w =
       (Return (Some a), S w) /\
     severity a = CRITICAL).
Proof.
  split_and!.
  - intros v thresholds. apply _check_thresholds_first_match.
  - intros key v bound. unfold breaches.
    repeat case_bool_decide; set_solver.
  - pose proof (_check_thresholds_first_match metric 95 ts
                  {["warning" := 70; "critical" := 90]} w) as H.
    unfold check_order in H. cbn [list_find] in H.
    rewrite decide_True in H.
    + destruct H as (a & bound & Hrun & _ & Hsev & _). eauto.
    + apply fires_iff. exists 90. split; [reflexivity|].
      apply breaches_ge; [set_solver|lra].
Qed.

(** C3, refuted as stated: a value equal to the [max] bound breaches
    nothing. *)
Lemma threshold_max_is_strict :
  ~ (forall v bound : R,
       v >= bound ->
       exists a w',
         _check_thresholds scenario v 0%Z {["max" := bound]} 0%nat =
         (Return (Some a), w')).
Proof.
  intros Hclaim.
  assert (100 >= 100) as Hge by lra.
  destruct (Hclaim 100 100 Hge) as (a & w' & Hrun).
  pose proof (_check_thresholds_first_match scenario 100 0%Z
                {["max" := 100]} 0%nat) as H.
  unfold check_order in H. cbn [list_find] in H.
  rewrite !decide_False in H; [cbn in H; congruence|..].
  all: intros (b & Hl & Hb)%fires_iff.
  all: first [discriminate Hl
             |change (Some 100 = Some b) in Hl; injection Hl as <-;
              apply breaches_gt in Hb; [lra|set_solver]].
Qed.

End ThresholdClaims.

(** ** Regular expressions and the resolution of bounds *)

Section ReFacts.
Import re.














End ReFacts.

Section ResolveFacts.
Import re ThresholdDetector.


Lemma match_patterns_run items name w :
  in_fragment items ->
  match_patterns items name w =
  (Return ((fun ip : nat * (string * Bounds) => ip.2.2)
             <$> list_find (wildcard_hit name) items), w).
Proof.
  induction items as [|[pattern th] items IH]; intros Hf; [done|].
  assert (in_fragment items) as Hf'.
  { intros p t Hin. apply (Hf p t). apply elem_of_cons. by right. }
  cbn [match_patterns list_find].
  destruct (contains_char "*" pattern) eqn:Hstar.
  - destruct (Hf pattern th) as [r Hr]; [apply elem_of_cons; by left|done|].
    unfold match_. rewrite Hr. 
    rewrite (bind_Return _ _ _ (match_here r name) w) by done.
    destruct (match_here r name) eqn:Hm.
    + rewrite decide_True; [done|]. split; [done|].
      by exists r.
    + rewrite decide_False.
      * rewrite IH by done. by destruct (list_find _ items) as [[? [? ?]]|].
      * intros [_ (r' & Hr' & Hm')].
        cbn in Hr'. rewrite Hr in Hr'. injection Hr' as <-. congruence.
  - rewrite decide_False by (intros [? _]; cbn in *; congruence).
    rewrite IH by done. by destruct (list_find _ items) as [[? [? ?]]|].
Qed.

End ResolveFacts.

Section ResolveClaims.
Import re ThresholdDetector.



End ResolveClaims.

(** ** Deduplication in StatisticalDetector *)

Section DedupFacts.
Import StatisticalDetector.

Implicit Types (g : list (datetime * list Anomaly)) (l : list Anomaly).

Lemma group_of_None g ts : group_of g ts = None <-> ts ∉ g.*1.
Proof.
  induction g as [|[ts' anoms] g IH]; cbn.
  - split; [intros _; apply not_elem_of_nil|done].
  - rewrite not_elem_of_cons. destruct (decide (ts' = ts)); naive_solver.
Qed.

Lemma group_of_elem g ts anoms :
  NoDup g.*1 -> (ts, anoms) ∈ g <-> group_of g ts = Some anoms.
Proof.
  induction g as [|[ts' anoms'] g IH]; cbn; intros Hnd.
  - split; [by intros ?%elem_of_nil|done].
  - apply NoDup_cons in Hnd as [Hk Hnd]. rewrite elem_of_cons, IH by done.
    destruct (decide (ts' = ts)) as [->|Hne]; [|naive_solver].
    apply group_of_None in Hk. rewrite Hk. naive_solver.
Qed.

Lemma group_append_keys g ts a :
  (group_append g ts a).*1 =
  if decide (ts ∈ g.*1) then g.*1 else g.*1 ++ [ts].
Proof.
  induction g as [|[ts' anoms] g IH]; cbn.
  - by rewrite decide_False by apply not_elem_of_nil.
  - destruct (decide (ts' = ts)) as [->|Hne]; cbn.
    + by rewrite decide_True by (apply elem_of_cons; by left).
    + rewrite IH. destruct (decide (ts ∈ g.*1)) as [Hin|Hin].
      * by rewrite decide_True by (apply elem_of_cons; by right).
      * rewrite decide_False; [done|].
        intros [?|?]%elem_of_cons; congruence.
Qed.

Lemma group_of_append g ts a ts' :
  group_of (group_append g ts a) ts' =
  if decide (ts' = ts) then Some (default [] (group_of g ts) ++ [a])
  else group_of g ts'.
Proof.
  induction g as [|[k v] g IH]; cbn.
  - destruct (decide (ts = ts')), (decide (ts' = ts)); congruence.
  - destruct (decide (k = ts)) as [->|Hne]; cbn.
    + destruct (decide (ts = ts')), (decide (ts' = ts)); congruence.
    + rewrite IH. destruct (decide (k = ts')), (decide (ts' = ts)); congruence.
Qed.

Lemma grouped_nil : grouped [] [].
Proof. split; [constructor|done]. Qed.

Lemma grouped_snoc g l a :
  grouped g l -> grouped (group_append g (timestamp a) a) (l ++ [a]).
Proof.
  intros [Hk Hg]. split.
  - rewrite group_append_keys. destruct (decide _); [done|].
    apply NoDup_app. split_and!; [done| |apply NoDup_singleton].
    by intros x Hx ->%list_elem_of_singleton.
  - intros ts. rewrite group_of_append, Hg. unfold with_timestamp.
    rewrite filter_app.
    destruct (decide (ts = timestamp a)) as [->|Hne].
    + rewrite (filter_singleton_True _ _ l) by done.
      by destruct (filter _ l).
    + rewrite (filter_singleton_False _ _ l) by congruence.
      by rewrite app_nil_r, Hg.
Qed.

Lemma grouped_foldl g l l' :
  grouped g l ->
  grouped (foldl (fun d a => group_append d (timestamp a) a) g l') (l ++ l').
Proof.
  revert g l. induction l' as [|a l' IH]; intros g l Hg; cbn.
  - by rewrite app_nil_r.
  - replace (l ++ a :: l') with ((l ++ [a]) ++ l') by by rewrite <- app_assoc.
    by apply IH, grouped_snoc.
Qed.

(** [max]: an element of the list whose confidence no other exceeds. *)
Lemma max_by_confidence_spec a rest w :
  exists best,
    max_by_confidence (a :: rest) w = (Return best, w) /\
    best ∈ a :: rest /\
    forall b, b ∈ a :: rest -> confidence b <= confidence best.
Proof.
  unfold max_by_confidence. eexists. split; [done|].
  revert a. induction rest as [|x rest IH]; intros a; cbn.
  - split; [by left|]. intros b ->%list_elem_of_singleton. lra.
  - destruct (IH (if decide (confidence x > confidence a) then x else a))
      as [Hin Hmax].
    split.
    + apply elem_of_cons in Hin as [->|Hin].
      * destruct (decide _); [right; by left|by left].
      * right. by right.
    + intros b [->|Hb]%elem_of_cons.
      * etrans; [|apply Hmax; by left]. destruct (decide _); lra.
      * apply elem_of_cons in Hb as [->|Hb].
        -- etrans; [|apply Hmax; by left]. destruct (decide _); lra.
        -- apply Hmax. by right.
Qed.

Lemma dedup_loop g w :
  (forall ts anoms, (ts, anoms) ∈ g -> anoms <> []) ->
  exists l',
    for_append g (fun '(ts, anoms) =>
      best ← max_by_confidence anoms; mret (Some best)) w = (Return l', w) /\
    Forall2 best_of g l'.
Proof.
  induction g as [|[ts anoms] g IH]; intros Hne.
  - exists []. by split.
  - destruct IH as (l' & Hrun & Hall).
    { intros ts' anoms' Hin. apply (Hne ts'). apply elem_of_cons. by right. }
    destruct anoms as [|a rest].
    { destruct (Hne ts []); [apply elem_of_cons; by left|done]. }
    destruct (max_by_confidence_spec a rest w) as (best & Hbest & Hin & Hmax).
    exists (best :: l'). split.
    + cbn [for_append].
      rewrite (bind_Return _ _ w (Some best) w).
      * by rewrite (bind_Return _ _ _ _ _ Hrun).
      * by rewrite (bind_Return _ _ _ _ _ Hbest).
    + by constructor.
Qed.

Lemma with_timestamp_elem ts l a :
  a ∈ with_timestamp ts l <-> timestamp a = ts /\ a ∈ l.
Proof. unfold with_timestamp. by rewrite list_elem_of_filter. Qed.

Lemma grouped_entry g l ts anoms :
  grouped g l -> (ts, anoms) ∈ g ->
  anoms <> [] /\ anoms = with_timestamp ts l.
Proof.
  intros [Hk Hg] Hin. apply group_of_elem in Hin; [|done].
  rewrite Hg in Hin. destruct (with_timestamp ts l); [done|].
  by injection Hin as <-.
Qed.

Lemma grouped_key g l ts :
  grouped g l -> ts ∈ g.*1 <-> ts ∈ timestamp <$> l.
Proof.
  intros [Hk Hg].
  destruct (group_of g ts) as [anoms|] eqn:Hgo.
  - split; intros _.
    + rewrite Hg in Hgo.
      destruct (with_timestamp ts l) as [|a f] eqn:Hf; [done|].
      assert (a ∈ with_timestamp ts l) as Ha
        by (rewrite Hf; apply elem_of_cons; by left).
      apply with_timestamp_elem in Ha as [<- Ha].
      apply list_elem_of_fmap. by exists a.
    + apply group_of_elem in Hgo; [|done].
      apply list_elem_of_fmap. by exists (ts, anoms).
  - split.
    + intros Hin. by apply group_of_None in Hgo.
    + intros (a & -> & Ha)%list_elem_of_fmap. rewrite Hg in Hgo.
      assert (a ∈ with_timestamp (timestamp a) l) as Hin
        by by apply with_timestamp_elem.
      destruct (with_timestamp _ l); [by apply elem_of_nil in Hin|done].
Qed.

(** The deduplicated list: one anomaly for each timestamp of the
    candidates, and that one is a candidate of the timestamp whose
    confidence no other candidate of the timestamp exceeds. *)
Lemma _deduplicate_anomalies_spec l w :
  exists l',
    _deduplicate_anomalies l w = (Return l', w) /\
    NoDup (timestamp <$> l') /\
    (forall ts, ts ∈ timestamp <$> l' <-> ts ∈ timestamp <$> l) /\
    (forall a, a ∈ l' ->
       a ∈ l /\
       forall b, b ∈ l -> timestamp b = timestamp a ->
                 confidence b <= confidence a).
Proof.
  destruct l as [|a0 l0].
  { exists []. split; [done|]. split; [constructor|]. split; [done|].
    by intros a ?%elem_of_nil. }
  unfold _deduplicate_anomalies.
  set (l := a0 :: l0).
  set (g := foldl _ [] l).
  assert (grouped g l) as Hg.
  { apply (grouped_foldl [] [] l), grouped_nil. }
  destruct (dedup_loop g w) as (l' & Hrun & Hall).
  { intros ts anoms Hin. by destruct (grouped_entry g l ts anoms). }
  exists l'. split; [exact Hrun|].
  assert (forall i e a, g !! i = Some e -> l' !! i = Some a ->
            timestamp a = e.1 /\ a ∈ l /\
            forall b, b ∈ l -> timestamp b = timestamp a ->
                      confidence b <= confidence a) as Hbest.
  { intros i [ts anoms] a Hi Ha.
    destruct (Forall2_lookup_lr _ _ _ _ _ _ Hall Hi Ha) as [Hin Hmax].
    destruct (grouped_entry g l ts anoms Hg) as [_ ->];
      [by eapply list_elem_of_lookup_2|].
    cbn [snd] in Hin, Hmax.
    apply with_timestamp_elem in Hin as [Hts Hin].
    split; [done|]. split; [done|].
    intros b Hb Hbt. apply Hmax, with_timestamp_elem. split; congruence. }
  assert (timestamp <$> l' = g.*1) as Hkeys.
  { apply list_eq. intros i. rewrite !list_lookup_fmap.
    destruct (g !! i) as [e|] eqn:Hi.
    - destruct (Forall2_lookup_l _ _ _ _ _ Hall Hi) as (a & Ha & _).
      rewrite Ha. cbn. f_equal. by destruct (Hbest i e a).
    - apply lookup_ge_None in Hi. rewrite (Forall2_length _ _ _ Hall) in Hi.
      apply lookup_ge_None in Hi. by rewrite Hi. }
  rewrite Hkeys. split; [apply Hg|]. split; [intros ts; by apply grouped_key|].
  intros a [i Ha]%list_elem_of_lookup.
  destruct (Forall2_lookup_r _ _ _ _ _ Hall Ha) as (e & Hi & _).
  by destruct (Hbest i e a).
Qed.

End DedupFacts.

(** ** StatisticalDetector *)

Section StatFacts.
Import StatisticalDetector.

Lemma where_elem {A} (cond : A -> bool) (a : list A) idx :
  idx ∈ np.where_ cond a <-> exists x, a !! idx = Some x /\ cond x = true.
Proof.
  unfold np.where_. rewrite list_elem_of_omap. split.
  - intros ([i x] & (j & y & [= -> ->] & Hj)%elem_of_lookup_imap & Hc).
    cbn in Hc. destruct (cond y) eqn:Hy; [|done]. injection Hc as <-. eauto.
  - intros (x & Hx & Hc). exists (idx, x). split.
    + apply elem_of_lookup_imap. eauto.
    + cbn. by rewrite Hc.
Qed.

Lemma values_length metric :
  length (get_values_array metric) = length (m_values metric).
Proof. unfold get_values_array. by rewrite length_fmap. Qed.

Lemma sample_at metric idx x :
  get_values_array metric !! idx = Some x ->
  exists mv, m_values metric !! idx = Some mv /\ mv_value mv = x.
Proof.
  unfold get_values_array. rewrite list_lookup_fmap.
  destruct (m_values metric !! idx) as [mv|]; [|done].
  intros [= <-]. eauto.
Qed.

(** A loop whose body returns on every element it meets returns. *)
Lemma for_append_total {A B} (xs : list A) (body : A -> M (option B)) w :
  (forall x w, x ∈ xs -> exists o w', body x w = (Return o, w')) ->
  exists l w', for_append xs body w = (Return l, w').
Proof.
  intros Hb. destruct (runs_total body xs Hb w) as (os & w' & Hr).
  exists (appended os), w'. by apply for_append_runs.
Qed.

Lemma _detect_zscore_anomalies_total self metric w :
  exists zs w',
    _detect_zscore_anomalies self metric (get_values_array metric) w =
    (Return zs, w').
Proof.
  unfold _detect_zscore_anomalies. set (values := get_values_array metric).
  destruct (decide (np.std values = 0)); [by exists [], w|].
  apply for_append_total. intros idx w0 (z & Hz & _)%where_elem.
  rewrite list_lookup_fmap in Hz.
  destruct (values !! idx) as [v|] eqn:Hv; [|done]. injection Hz as <-.
  destruct (sample_at metric idx v Hv) as (mv & Hmv & _).
  rewrite (bind_Return _ _ _ _ _ (getitem_Some _ _ _ _ Hv)).
  erewrite bind_Return
    by (apply getitem_Some; rewrite list_lookup_fmap, Hv; reflexivity).
  rewrite (bind_Return _ _ _ _ _ (getitem_Some _ _ _ _ Hmv)).
  unfold BaseDetector._create_anomaly.
  erewrite bind_Return.
  2: { apply Anomaly_new_ok, Rmin_unit_interval.
       pose proof (Rabs_pos ((v - np.mean values) / np.std values)). lra. }
  eauto.
Qed.

Lemma _detect_iqr_anomalies_total self metric w :
  exists is_ w',
    _detect_iqr_anomalies self metric (get_values_array metric) w =
    (Return is_, w').
Proof.
  unfold _detect_iqr_anomalies. set (values := get_values_array metric).
  set (q1 := np.percentile values 25). set (q3 := np.percentile values 75).
  destruct (decide (q3 - q1 = 0)); [by exists [], w|].
  apply for_append_total. intros idx w0 (v & Hv & Hc)%where_elem.
  destruct (sample_at metric idx v Hv) as (mv & Hmv & _).
  rewrite (bind_Return _ _ _ _ _ (getitem_Some _ _ _ _ Hv)).
  apply orb_true_iff in Hc. rewrite !bool_decide_eq_true in Hc.
  set (lower := q1 - iqr_multiplier self * (q3 - q1)) in *.
  set (upper := q3 + iqr_multiplier self * (q3 - q1)) in *.
  assert (forall d, 0 <= d ->
            0 <= Rmin ((if decide (q3 - q1 > 0) then d / (q3 - q1) else 0) / 2) 1
              <= 1) as Hconf.
  { intros d Hd. apply Rmin_unit_interval.
    destruct (decide (q3 - q1 > 0)); [|lra].
    assert (0 <= d / (q3 - q1)); [|lra].
    apply Rdiv_nonneg; lra. }
  destruct (decide (v < lower)).
  all: cbn beta iota zeta.
  all: rewrite (bind_Return _ _ _ _ _ (getitem_Some _ _ _ _ Hmv)).
  all: unfold BaseDetector._create_anomaly.
  all: erewrite bind_Return by (apply Anomaly_new_ok, Hconf; lra).
  all: eauto.
Qed.

End StatFacts.



Section StatisticalClaims.
Import StatisticalDetector.



End StatisticalClaims.

Ltac inv_all H :=
  repeat (inv_run H;
    match type of H with
    | match ?o with Some _ => _ | None => _ end _ = (Return _, _) =>
        destruct o eqn:?
    | (if ?b then _ else _) _ = (Return _, _) => destruct b eqn:?
    end);
  inv_run H.

Ltac by_constructor :=
  simplify_eq;
  match goal with
  | H : BaseDetector._create_anomaly _ _ _ _ _ _ _ _ _ _ _ = (Return ?a, _)
    |- constructed ?a => exact (_create_anomaly_constructed _ _ _ _ _ _ _ _ _ _ _ _ _ H)
  end.

Lemma spike_constructed self metric w l w' :
  SpikeDetector.detect self metric w = (Return l, w') -> Forall constructed l.
Proof.
  unfold SpikeDetector.detect.
  destruct (negb _); [by intros [= <- _]|].
  destruct (negb _); [by intros [= <- _]|].
  apply for_append_Forall. intros i wa a wb H.
  unfold SpikeDetector.body in H. inv_all H.
  all: unfold SpikeDetector.check_change in H; inv_all H.
  all: by_constructor.
Qed.

Lemma threshold_constructed self metric w l w' :
  ThresholdDetector.detect self metric w = (Return l, w') ->
  Forall constructed l.
Proof.
  unfold ThresholdDetector.detect.
  destruct (negb _); [by intros [= <- _]|].
  destruct (negb _); [by intros [= <- _]|].
  intros H. inv_all H; try by (subst; constructor).
  revert H. apply for_append_Forall. intros mv wa a wb Hb.
  unfold ThresholdDetector._check_thresholds in Hb. inv_all Hb.
  all: unfold ThresholdDetector._create_threshold_anomaly in *.
  all: repeat match goal with
         | H : (let '(_, _) := ?p in _) _ = _ |- _ => destruct p
         end.
  all: by_constructor.
Qed.

Lemma statistical_constructed self metric w l w' :
  StatisticalDetector.detect self metric w = (Return l, w') ->
  Forall constructed l.
Proof.
  unfold StatisticalDetector.detect.
  destruct (negb _); [by intros [= <- _]|].
  destruct (negb _); [by intros [= <- _]|].
  intros H. inv_all H.
  rename x into zs, x0 into is_.
  assert (Forall constructed zs) as Hzs.
  { revert Hrun. unfold StatisticalDetector._detect_zscore_anomalies.
    destruct (decide _); [by intros [= <- _]|].
    apply for_append_Forall. intros idx wa a wb Hb. inv_all Hb.
    all: by_constructor. }
  assert (Forall constructed is_) as His.
  { revert Hrun0. unfold StatisticalDetector._detect_iqr_anomalies.
    destruct (decide _); [by intros [= <- _]|].
    apply for_append_Forall. intros idx wa a wb Hb. inv_all Hb.
    all: by_constructor. }
  destruct (_deduplicate_anomalies_spec (zs ++ is_) w1)
    as (l' & Hd & _ & _ & Hsub).
  rewrite Hd in H. injection H as <- <-.
  apply Forall_forall. intros a Ha. destruct (Hsub a Ha) as [Hin _].
  assert (Forall constructed (zs ++ is_)) as Hall by by apply Forall_app.
  by eapply Forall_forall in Hall.
Qed.

Lemma pattern_constructed self metric w l w' :
  PatternDetector.detect self metric w = (Return l, w') ->
  Forall constructed l.
Proof.
  unfold PatternDetector.detect.
  destruct (negb _); [by intros [= <- _]|].
  destruct (negb _); [by intros [= <- _]|].
  intros H. inv_all H. subst l. apply Forall_app. split.
  - revert Hrun. unfold PatternDetector._detect_trend_changes. intros H.
    inv_all H. revert H.
    apply for_append_Forall. intros idx wa a wb Hb. inv_all Hb.
    all: by_constructor.
  - revert Hrun0. unfold PatternDetector._detect_moving_average_deviations.
    apply for_append_Forall. intros idx wa a wb Hb.
    unfold PatternDetector.ma_body in Hb. inv_all Hb.
    all: by_constructor.
Qed.

(** Whatever a detector returns went through the constructor. *)
Lemma detect_constructed detector metric w l w' :
  PrometheusCollector.detect detector metric w = (Return l, w') ->
  Forall constructed l.
Proof.
  destruct detector; cbn.
  - apply spike_constructed.
  - apply statistical_constructed.
  - apply threshold_constructed.
  - apply pattern_constructed.
Qed.

(** C5.  The constructor of [Anomaly] rejects a confidence outside
    [0, 1]: [__post_init__] raises, and so does [_create_anomaly], the one
    place where detectors build anomalies.  Hence every anomaly in a list that
    a detector returns has its confidence in [0, 1]. *)
Theorem confidence_bound :
  (forall a w,
     ~ (0 <= confidence a <= 1) -> exists e, post_init a w = (Raise e, w)) /\
  (forall name metric ty sev ts v c descr ev md w,
     ~ (0 <= c <= 1) ->
     exists e w',
       BaseDetector._create_anomaly name metric ty sev ts v c descr ev md w =
       (Raise e, w')) /\
  (forall detector metric w l w',
     PrometheusCollector.detect detector metric w = (Return l, w') ->
     Forall (fun a => 0 <= confidence a <= 1) l).
Proof.
  split_and!.
  - intros a w Hc. unfold post_init. rewrite decide_False by done. eauto.
  - intros name metric ty sev ts v c descr ev md w Hc.
    destruct (Anomaly_new_rejects (m_name metric) ty sev ts v name c ev descr
                md w Hc) as [e He].
    by exists e, (S w).
  - intros detector metric w l w' H.
    apply detect_constructed in H.
    eapply Forall_impl; [exact H|]. by intros a [? _ _ _ _ _].
Qed.

Lemma confidence_bound_witness :
  (exists e,
     post_init (mkAnomaly "m" SPIKE LOW 0%Z 1 "SpikeDetector" 2 None [] ∅ ∅
                  0%nat None None false None) 0%nat = (Raise e, 0%nat)) /\
  (exists l w',
     PrometheusCollector.detect (PrometheusCollector.Spike scenario_config)
       scenario 0%nat = (Return l, w') /\
     length l = 2%nat /\
     Forall (fun a => 0 <= confidence a <= 1) l).
Proof.
  destruct confidence_bound as (Hpost & _ & Hdetect). split.
  - apply Hpost. cbn. lra.
  - destruct (scenario_output 0%nat) as (id1 & id2 & w' & Ho).
    eexists _, w'. split; [exact Ho|]. split; [reflexivity|].
    exact (Hdetect (PrometheusCollector.Spike scenario_config) scenario
             0%nat _ w' Ho).
Defined.

(** C9, as the code runs it.  No detector fills [labels]: every anomaly a
    detector returns has the empty label set.  On a sample labelled
    [{instance: localhost:8080}] that breaches its critical bound, the one
    anomaly returned has no label. *)
Theorem labels_left_empty :
  (forall detector metric w l w',
     PrometheusCollector.detect detector metric w = (Return l, w') ->
     Forall (fun a => labels a = ∅) l) /\
  (exists a w',
     ThresholdDetector.detect labelled_config labelled_metric 0%nat =
       (Return [a], w') /\
     timestamp a = 0%Z /\ value a = 95 /\
     labels a = ∅ /\
     labels a <> ({["instance" := "localhost:8080"]} : gmap string string)).
Proof.
  split.
  - intros detector metric w l w' H. apply detect_constructed in H.
    eapply Forall_impl; [exact H|]. by intros a [_ ? _ _ _ _].
  - pose proof (_check_thresholds_first_match labelled_metric 95 0%Z
                  {["critical" := 90]} 0%nat) as H.
    unfold check_order in H. cbn [list_find] in H.
    rewrite decide_True in H.
    2: { apply fires_iff. exists 90. split; [reflexivity|].
         apply breaches_ge; [set_solver|lra]. }
    destruct H as (a & bound & Hrun & _ & _ & _ & _ & Hv & Hts & _).
    exists a, 1%nat. split_and!; try done.
    + unfold ThresholdDetector.detect. cbn [ThresholdDetector.enabled labelled_config negb].
      unfold BaseDetector.validate_metric. rewrite decide_False by (cbn; lia).
      cbn [negb].
      assert (ThresholdDetector._get_metric_thresholds labelled_config
                (m_name labelled_metric) 0%nat =
              (Return (Some ({["critical" := 90]} : gmap string R)), 0%nat))
        as Hres by reflexivity.
      rewrite (bind_Return _ _ _ _ _ Hres).
      rewrite decide_False by (apply map_non_empty_singleton).
      cbn [for_append m_values labelled_metric mv_value mv_timestamp].
      rewrite (bind_Return _ _ _ _ _ Hrun).
      by erewrite bind_Return by reflexivity.
    + assert (constructed a) as [_ Hl _ _ _ _].
      { unfold ThresholdDetector._check_thresholds in Hrun. inv_all Hrun.
        all: unfold ThresholdDetector._create_threshold_anomaly in *.
        all: repeat match goal with
               | H : (let '(_, _) := ?p in _) _ = _ |- _ => destruct p
               end.
        all: by_constructor. }
      done.
    + assert (constructed a) as [_ Hl _ _ _ _].
      { unfold ThresholdDetector._check_thresholds in Hrun. inv_all Hrun.
        all: unfold ThresholdDetector._create_threshold_anomaly in *.
        all: repeat match goal with
               | H : (let '(_, _) := ?p in _) _ = _ |- _ => destruct p
               end.
        all: by_constructor. }
      rewrite Hl. intros Heq. symmetry in Heq.
      by apply map_non_empty_singleton in Heq.
Qed.

(** ** PatternDetector: deviation from the moving average *)

Section PatternFacts.
Import PatternDetector.




End PatternFacts.


Section PatternClaims.
Import PatternDetector.





End PatternClaims.

(** ** Degenerate statistics *)

Section NpFacts.










End NpFacts.




(** ** Serialisation of anomalies *)

Section DictFacts.

Lemma rebuilt_constructed a : constructed a -> rebuilt a = a.
Proof. intros [_ _ _ _ Hv Hs]. destruct a; cbn in *. by subst. Qed.

Lemma AnomalyType_of_value k w :
  AnomalyType_of (VStr (AnomalyType_value k)) w = (Return k, w).
Proof. by destruct k. Qed.

Lemma Severity_of_value k w :
  Severity_of (VStr (Severity_value k)) w = (Return k, w).
Proof. by destruct k. Qed.

Lemma to_dict_entries a k v :
  (k, v) ∈ entries a -> to_dict a !! k = Some v.
Proof.
  intros Hin. unfold to_dict.
  assert (k <> "deviation_percent"%string) as Hk.
  { intros ->. unfold entries in Hin.
    repeat (apply elem_of_cons in Hin as [[= ?]|Hin]).
    by apply elem_of_nil in Hin. }
  destruct (deviation a); [rewrite lookup_insert_ne by done|].
  all: unfold entries in Hin.
  all: repeat (apply elem_of_cons in Hin as [[= -> ->]|Hin]; [reflexivity|]).
  all: by apply elem_of_nil in Hin.
Qed.

Lemma carries_to_dict a : carries a (to_dict a).
Proof. intros k v. apply to_dict_entries. Qed.

Lemma carries_insert a item k v :
  k ∉ allowed_keys -> carries a item -> carries a (<[k := v]> item).
Proof.
  intros Hk Hc k' v' Hin. rewrite lookup_insert_ne; [by apply Hc|].
  intros <-. apply Hk. unfold entries in Hin. unfold allowed_keys.
  repeat (apply elem_of_cons in Hin as [[= -> _]|Hin];
          [repeat (apply elem_of_cons; (left; reflexivity) || right)|]).
  by apply elem_of_nil in Hin.
Qed.

Lemma filtered_lookup (data : PyDict) k :
  k ∈ allowed_keys ->
  filter (fun kv : string * PyVal => kv.1 ∈ allowed_keys) data !! k =
  data !! k.
Proof.
  intros Hk. destruct (data !! k) eqn:E.
  - by apply map_lookup_filter_Some.
  - apply map_lookup_filter_None. by left.
Qed.

Lemma item_run (d : PyDict) k v w :
  d !! k = Some v -> item d k w = (Return v, w).
Proof. intros H. unfold item. by rewrite H. Qed.

Lemma kw_required_run {A} (d : PyDict) k v (x : A) conv w :
  d !! k = Some v -> conv v = Some x ->
  kw_required d k conv w = (Return x, w).
Proof. intros H Hx. unfold kw_required. by rewrite H, Hx. Qed.

Lemma kw_default_run {A} (d : PyDict) k v (x : A) conv dflt w :
  d !! k = Some v -> conv v = Some x ->
  kw_default d k conv dflt w = (Return x, w).
Proof. intros H Hx. unfold kw_default. by rewrite H, Hx. Qed.

Lemma as_opt_float_opt o : as_opt_float (opt_float o) = Some o.
Proof. by destruct o. Qed.

Lemma as_opt_datetime_opt o : as_opt_datetime (opt_datetime o) = Some o.
Proof. by destruct o. Qed.

Ltac entry :=
  unfold entries;
  repeat (apply elem_of_cons; first [left; reflexivity | right]).

Ltac allowed :=
  unfold allowed_keys;
  repeat (apply elem_of_cons; first [left; reflexivity | right]).

Lemma from_dict_carries a item w :
  carries a item -> confidence_ok a ->
  from_dict item w = (Return (rebuilt a), w).
Proof.
  intros Hc Hconf. unfold from_dict.
  erewrite bind_Return by (apply item_run, Hc; entry).
  rewrite (bind_Return _ _ _ _ _ (AnomalyType_of_value _ _)).
  erewrite bind_Return by (apply item_run, Hc; entry).
  rewrite (bind_Return _ _ _ _ _ (Severity_of_value _ _)).
  erewrite bind_Return by (apply item_run, Hc; entry).
  erewrite bind_Return by reflexivity.
  do 3 (erewrite bind_Return
          by (eapply kw_required_run;
              [rewrite filtered_lookup by allowed; apply Hc; entry
              |reflexivity])).
  do 8 (erewrite bind_Return
          by (eapply kw_default_run;
              [rewrite filtered_lookup by allowed; apply Hc; entry
              |first [reflexivity | apply as_opt_float_opt
                     | apply as_opt_datetime_opt]])).
  unfold post_init. by rewrite decide_True.
Qed.

End DictFacts.

(** ** Enrichment *)

Section EnrichFacts.
Import LLMValidator PrometheusCollector.

Lemma not_allowed k :
  k ∈ ["llm_model"; "llm_analysis"; "llm_validation"]%string ->
  k ∉ allowed_keys.
Proof.
  intros Hk Ha. unfold allowed_keys in Ha.
  repeat (apply elem_of_cons in Hk as [->|Hk]);
    [..|by apply elem_of_nil in Hk].
  all: repeat (apply elem_of_cons in Ha as [Ha|Ha]; [discriminate Ha|]).
  all: by apply elem_of_nil in Ha.
Qed.

Lemma to_dict_no_analysis a : get (to_dict a) "llm_analysis" = VNone.
Proof. unfold get, to_dict. by destruct (deviation a). Qed.

Lemma validate_one client a w :
  always_fails client ->
  exists item w',
    try_except
      (llm_analysis ← client (to_dict a);
       let enriched : PyDict :=
         <["llm_model" := get_or llm_analysis "llm_model"
                            (VStr "mixtral-8x7b-32768")]>
         (<["llm_analysis" := get llm_analysis "llm_analysis"]>
          (<["llm_validation" := get llm_analysis "llm_validation"]>
             (to_dict a))) in
       mret (Some enriched))
      (fun e => mret (Some (to_dict a))) w = (Return (Some item), w') /\
    unenriched a item.
Proof.
  intros Hf. unfold try_except.
  destruct (Hf (to_dict a) w) as [(e & w' & Hc)|(r & w' & Hc & Hr)].
  - rewrite (bind_Raise _ _ _ _ _ Hc). eexists _, _. split; [done|].
    split; [apply carries_to_dict|]. by rewrite to_dict_no_analysis.
  - rewrite (bind_Return _ _ _ _ _ Hc). eexists _, _. split; [done|]. split.
    + repeat apply carries_insert; try apply carries_to_dict.
      all: apply not_allowed.
      all: repeat (apply elem_of_cons; first [left; reflexivity | right]).
    + unfold get at 1. rewrite lookup_insert_ne by done.
      by rewrite lookup_insert_eq.
Qed.

Lemma validate_anomalies_fails client anomalies w :
  always_fails client ->
  exists items w',
    validate_anomalies (LLMValidator.mk true (Some client)) anomalies true w
      = (Return items, w') /\
    Forall2 unenriched anomalies items.
Proof.
  intros Hf. unfold validate_anomalies. cbn [enabled llm_client negb].
  destruct anomalies as [|a0 rest]; [by exists [], w|].
  generalize (a0 :: rest). clear a0 rest. intros l. revert w.
  induction l as [|a l IH]; intros w; [by exists [], w|].
  destruct (validate_one client a w Hf) as (item & w1 & Hrun & Hitem).
  destruct (IH w1) as (items & w2 & Hrest & Hitems).
  exists (item :: items), w2. split; [|by constructor].
  cbn [for_append]. rewrite (bind_Return _ _ _ _ _ Hrun).
  by rewrite (bind_Return _ _ _ _ _ Hrest).
Qed.

Lemma rebuild_items anomalies items w :
  Forall constructed anomalies ->
  Forall2 unenriched anomalies items ->
  for_append items (fun item =>
    anomaly ← from_dict item;
    if truthy (get item "llm_analysis") then
      mret (Some (mkAnomaly (metric_name anomaly) (anomaly_type anomaly)
              (severity anomaly) (timestamp anomaly) (value anomaly)
              (detector_name anomaly) (confidence anomaly)
              (expected_value anomaly) (description anomaly)
              (<["llm_validation" := get item "llm_validation"]>
               (<["llm_analysis" := get item "llm_analysis"]>
                (metadata anomaly)))
              (labels anomaly) (anomaly_id anomaly) (start_time anomaly)
              (end_time anomaly) (llm_validated anomaly)
              (llm_status anomaly)))
    else mret (Some anomaly)) w = (Return anomalies, w).
Proof.
  intros Hall Hitems. revert Hall.
  induction Hitems as [|a item l items [Hc Hn] _ IH]; intros Hall; [done|].
  apply Forall_cons in Hall as [Ha Hall].
  cbn [for_append].
  erewrite bind_Return.
  2: { erewrite bind_Return by (apply from_dict_carries; [done|apply Ha]).
       rewrite Hn. reflexivity. }
  rewrite (bind_Return _ _ _ _ _ (IH Hall)).
  by rewrite rebuilt_constructed.
Qed.

(** The enrichment stage gives the batch back when the call fails. *)
Lemma enrich_stage_fails self config_enabled client all_anomalies w :
  llm_validator self = LLMValidator.init config_enabled client ->
  (forall c, client = Some c -> always_fails c) ->
  Forall constructed all_anomalies ->
  exists w', enrich_stage self all_anomalies w = (Return all_anomalies, w').
Proof.
  intros Hv Hf Hall. unfold enrich_stage. rewrite Hv.
  destruct client as [c|]; cbn [LLMValidator.init enabled];
    [|by exists w].
  destruct config_enabled; cbn [andb]; [|by exists w].
  case_bool_decide; [|by exists w].
  unfold try_except, _enrich_with_llm. rewrite Hv. cbn [LLMValidator.init].
  destruct (validate_anomalies_fails c all_anomalies w (Hf c eq_refl))
    as (items & w' & Hrun & Hitems).
  rewrite (bind_Return _ _ _ _ _ Hrun).
  rewrite (rebuild_items all_anomalies items w' Hall Hitems). eauto.
Qed.

End EnrichFacts.

Section CollectorFacts.
Import LLMValidator PrometheusCollector.

Lemma for_extend_total {A B} (xs : list A) (body : A -> M (list B))
    (P : B -> Prop) w :
  (forall x w, exists l w', body x w = (Return l, w') /\ Forall P l) ->
  exists l w', for_extend xs body w = (Return l, w') /\ Forall P l.
Proof.
  intros Hb. revert w. induction xs as [|x xs IH]; intros w.
  - exists [], w. by split.
  - destruct (Hb x w) as (l1 & w1 & Hx & H1).
    destruct (IH w1) as (l2 & w2 & Hr & H2).
    exists (l1 ++ l2), w2. split; [|by apply Forall_app].
    cbn [for_extend]. rewrite (bind_Return _ _ _ _ _ Hx).
    by rewrite (bind_Return _ _ _ _ _ Hr).
Qed.

(** [try: c except Exception: return []] always returns. *)
Lemma try_or_empty {B} (c : M (list B)) (P : B -> Prop) w :
  (forall l w', c w = (Return l, w') -> Forall P l) ->
  exists l w',
    try_except c (fun e => mret []) w = (Return l, w') /\ Forall P l.
Proof.
  intros Hc. unfold try_except.
  destruct (c w) as [[l|e] w'] eqn:Hcw; eauto.
Qed.

Lemma _detect_anomalies_total self metric w :
  exists l w',
    _detect_anomalies self metric w = (Return l, w') /\
    Forall constructed l.
Proof.
  apply for_extend_total. intros detector w0. apply try_or_empty.
  intros l w'. apply detect_constructed.
Qed.

(** The detection stage returns, whatever the metrics store does, and
    everything in its result was built by a detector. *)
Lemma detect_all_total self w :
  exists raw w',
    detect_all self w = (Return raw, w') /\ Forall constructed raw.
Proof.
  apply for_extend_total. intros metric_name w0. apply try_or_empty.
  intros l w' H. inv_run H.
  destruct x as [metric|]; [|inv_run H; by subst].
  destruct (decide _); [inv_run H; by subst|].
  destruct (_detect_anomalies_total self metric w1) as (l' & w2 & Hd & Hl).
  congruence.
Qed.

(** [LLMClient.validate_anomaly] over a remote service that fails. *)
Lemma llm_client_fails (c : LLMClient.t) :
  (forall model p w,
     exists e w', LLMClient.chat_completions_create c model p w =
                  (Raise e, w')) ->
  always_fails (LLMClient.validate_anomaly c).
Proof.
  intros Hapi d w. right. unfold LLMClient.validate_anomaly.
  destruct (negb _); [by eexists _, _|].
  unfold try_except, LLMClient._call_model.
  destruct (Hapi (LLMClient.model c)
              (LLMClient._build_validation_prompt d) w) as (e & w1 & He).
  rewrite (bind_Raise _ _ _ _ _ He).
  destruct (_ || _); [|by eexists _, _].
  destruct (Hapi LLMClient.FALLBACK_MODEL
              (LLMClient._build_validation_prompt d) w1) as (e2 & w2 & He2).
  rewrite (bind_Raise _ _ _ _ _ He2). by eexists _, _.
Qed.

End CollectorFacts.

Section CollectorClaims.
Import LLMValidator PrometheusCollector.

(** C4.  A collector whose enricher fails on every call (the client raises,
    or answers without an analysis as [LLMClient.validate_anomaly] does when
    the remote service fails) returns from a cycle exactly the list of
    anomalies its detection stage produced: the same anomalies, in the same
    order, with every field unchanged. *)
Theorem enrichment_fallback (self : PrometheusCollector.t)
    (config_enabled : bool) (client : option (PyDict -> M PyDict))
    (w : world) :
  llm_validator self = LLMValidator.init config_enabled client ->
  (forall c, client = Some c ->
     always_fails c \/
     exists llm, c = LLMClient.validate_anomaly llm /\
       forall model p w0, exists e w1,
         LLMClient.chat_completions_create llm model p w0 = (Raise e, w1)) ->
  exists raw w1 w2,
    detect_all self w = (Return raw, w1) /\
    collect_and_analyze self w = (Return raw, w2).
Proof.
  intros Hv Hf.
  destruct (detect_all_total self w) as (raw & w1 & Hd & Hraw).
  destruct (enrich_stage_fails self config_enabled client raw w1 Hv)
    as [w2 He]; [|done|].
  { intros c Hc. destruct (Hf c Hc) as [?|(llm & -> & Hapi)]; [done|].
    by apply llm_client_fails. }
  exists raw, w1, w2. split; [done|].
  unfold collect_and_analyze. by rewrite (bind_Return _ _ _ _ _ Hd).
Qed.

Lemma enrichment_fallback_witness :
  exists raw w1 w2,
    detect_all failing_collector 0%nat = (Return raw, w1) /\
    collect_and_analyze failing_collector 0%nat = (Return raw, w2) /\
    length raw = 2%nat.
Proof.
  destruct (enrichment_fallback failing_collector true
              (Some (fun _ => raise (OtherError "timeout"))) 0%nat)
    as (raw & w1 & w2 & Hd & Hc).
  - reflexivity.
  - intros c [= <-]. left. intros d w. left. by eexists _, _.
  - exists raw, w1, w2. split; [done|]. split; [done|].
    destruct (scenario_output 0%nat) as (id1 & id2 & w' & Ho).
    assert (detect_all failing_collector 0%nat =
            (Return (([spike_built scenario_config scenario (sample 4 300)
                         100 300 ((300 - 100) / 100 * 100) id1;
                       spike_built scenario_config scenario (sample 5 100)
                         300 100 ((100 - 300) / 300 * 100) id2]
                      ++ []) ++ []), w')) as Hd'.
    { assert (_detect_anomalies failing_collector scenario 0%nat =
              (Return ([spike_built scenario_config scenario
                          (sample 4 300) 100 300 ((300 - 100) / 100 * 100) id1;
                        spike_built scenario_config scenario
                          (sample 5 100) 300 100 ((100 - 300) / 300 * 100) id2]
                       ++ []), w')) as Hda.
      { unfold _detect_anomalies, failing_collector.
        cbn [detectors for_extend].
        erewrite bind_Return; [by erewrite bind_Return by reflexivity|].
        unfold try_except. cbn [PrometheusCollector.detect]. by rewrite Ho. }
      unfold detect_all.
      change (metrics_to_monitor failing_collector)
        with ["test_metric"%string].
      cbn [for_extend].
      erewrite bind_Return; [by erewrite bind_Return by reflexivity|].
      unfold try_except, _collect_metric, try_except.
      change (get_metric_range failing_collector "test_metric")
        with (mret (Some scenario) : M (option Metric)).
      erewrite bind_Return by reflexivity.
      cbn beta iota.
      rewrite decide_False by (cbn; lia).
      by rewrite Hda. }
    rewrite Hd' in Hd. by injection Hd as <- _.
Defined.

End CollectorClaims.

(** * Further properties of the code *)

(** ** [Anomaly.to_dict] and [Anomaly.from_dict] *)

Ltac in_list :=
  repeat (apply elem_of_cons; first [left; reflexivity | right]).

Section DictRoundTrip.

(** X1.  [from_dict(to_dict(a))] returns, for an anomaly whose confidence
    is in [0, 1], the anomaly [a] with [llm_validated] and [llm_status] back
    at their defaults: [to_dict] writes the two fields, [from_dict] drops
    them.  The round trip gives [a] back exactly when the two fields of [a]
    are the defaults. *)
Theorem from_dict_to_dict :
  (forall a w,
     0 <= confidence a <= 1 ->
     from_dict (to_dict a) w = (Return (rebuilt a), w)) /\
  (forall a,
     rebuilt a = a <-> llm_validated a = false /\ llm_status a = None).
Proof.
  split.
  - intros a w Hc. apply from_dict_carries; [apply carries_to_dict|done].
  - intros a. destruct a; cbn. split.
    + by intros [= <- <-].
    + by intros [-> ->].
Qed.

Lemma from_dict_to_dict_witness :
  from_dict (to_dict validated_anomaly) 0%nat =
    (Return (rebuilt validated_anomaly), 0%nat) /\
  rebuilt validated_anomaly <> validated_anomaly.
Proof.
  destruct from_dict_to_dict as [H _]. split.
  - apply H. cbn. lra.
  - intros [=].
Defined.

(** X2.  What [from_dict] raises, in the order the source reads the dict:
    [KeyError] for a missing [anomaly_type], [ValueError] for a string that
    is the value of no [AnomalyType], [KeyError] for a missing [severity]
    and, with the three converted entries in place, [TypeError] for a
    missing [metric_name] and [ValueError] for a confidence outside
    [0, 1]. *)
Theorem from_dict_errors (data : PyDict) (w : world) :
  (data !! "anomaly_type" = None ->
   from_dict data w = (Raise (KeyError "anomaly_type"), w)) /\
  (forall s,
     data !! "anomaly_type" = Some (VStr s) ->
     (forall k, AnomalyType_value k <> s) ->
     exists msg, from_dict data w = (Raise (ValueError msg), w)) /\
  (forall k,
     data !! "anomaly_type" = Some (VStr (AnomalyType_value k)) ->
     data !! "severity" = None ->
     from_dict data w = (Raise (KeyError "severity"), w)) /\
  (forall k s t,
     data !! "anomaly_type" = Some (VStr (AnomalyType_value k)) ->
     data !! "severity" = Some (VStr (Severity_value s)) ->
     data !! "timestamp" = Some (VIso t) ->
     data !! "metric_name" = None ->
     exists msg, from_dict data w = (Raise (TypeError msg), w)) /\
  (forall a,
     carries a data -> ~ (0 <= confidence a <= 1) ->
     exists msg, from_dict data w = (Raise (ValueError msg), w)).
Proof.
  split_and!.
  - intros H. unfold from_dict, item. rewrite H. reflexivity.
  - intros s H Hs. unfold from_dict.
    erewrite bind_Return by (by apply item_run).
    eexists. apply bind_Raise. unfold AnomalyType_of.
    destruct (list_find _ _) as [[i k]|] eqn:Hf; [|reflexivity].
    apply list_find_Some in Hf as (_ & Hk & _). by destruct (Hs k).
  - intros k Hk H. unfold from_dict.
    erewrite bind_Return by (by apply item_run).
    rewrite (bind_Return _ _ _ _ _ (AnomalyType_of_value _ _)).
    unfold item. rewrite H. reflexivity.
  - intros k s t Hk Hs Ht H. unfold from_dict.
    erewrite bind_Return by (by apply item_run).
    rewrite (bind_Return _ _ _ _ _ (AnomalyType_of_value _ _)).
    erewrite bind_Return by (by apply item_run).
    rewrite (bind_Return _ _ _ _ _ (Severity_of_value _ _)).
    erewrite bind_Return by (by apply item_run).
    erewrite bind_Return by reflexivity.
    eexists. apply bind_Raise. unfold kw_required.
    rewrite filtered_lookup by (unfold allowed_keys; in_list).
    rewrite H. reflexivity.
  - intros a Hc Hconf. unfold from_dict.
    erewrite bind_Return by (apply item_run, Hc; unfold entries; in_list).
    rewrite (bind_Return _ _ _ _ _ (AnomalyType_of_value _ _)).
    erewrite bind_Return by (apply item_run, Hc; unfold entries; in_list).
    rewrite (bind_Return _ _ _ _ _ (Severity_of_value _ _)).
    erewrite bind_Return by (apply item_run, Hc; unfold entries; in_list).
    erewrite bind_Return by reflexivity.
    do 3 (erewrite bind_Return
            by (eapply kw_required_run;
                [rewrite filtered_lookup by (unfold allowed_keys; in_list);
                 apply Hc; unfold entries; in_list
                |reflexivity])).
    do 8 (erewrite bind_Return
            by (eapply kw_default_run;
                [rewrite filtered_lookup by (unfold allowed_keys; in_list);
                 apply Hc; unfold entries; in_list
                |first [reflexivity | apply as_opt_float_opt
                       | apply as_opt_datetime_opt]])).
    unfold post_init. rewrite decide_False by done. eauto.
Qed.

(** X3.  [from_dict] ignores every key that is not a field it keeps
    ([deviation_percent], the LLM entries, anything else). *)
Theorem from_dict_ignores_unknown_keys (data : PyDict) (k : string)
    (v : PyVal) (w : world) :
  k ∉ allowed_keys ->
  from_dict (<[k := v]> data) w = from_dict data w.
Proof.
  intros Hk. unfold from_dict, item.
  assert (forall k', k' ∈ allowed_keys -> <[k := v]> data !! k' = data !! k')
    as Hl.
  { intros k' Hk'. apply lookup_insert_ne. by intros ->. }
  rewrite !Hl by (unfold allowed_keys; in_list).
  rewrite map_filter_insert_not by (intros ?; exact Hk).
  reflexivity.
Qed.

Lemma from_dict_ignores_unknown_keys_witness :
  from_dict (<["deviation_percent" := VFloat 200]>
               (to_dict validated_anomaly)) 0%nat =
  from_dict (to_dict validated_anomaly) 0%nat.
Proof.
  apply from_dict_ignores_unknown_keys. unfold allowed_keys.
  rewrite !not_elem_of_cons. split_and!; try done. apply not_elem_of_nil.
Defined.

End DictRoundTrip.

(** ** Enrichment with any client *)

Section EnrichAny.
Import LLMValidator PrometheusCollector.

Lemma enriched_from_refl l : Forall2 enriched_from l l.
Proof.
  apply Forall2_same_length_lookup_2; [done|].
  intros i a b Ha Hb. left. congruence.
Qed.

(** One call of the client inside [validate_anomalies(keep_all=True)]:
    whatever the client does, a dict with the entries of the anomaly comes
    out. *)
Lemma validate_one_any client a w :
  exists item w',
    try_except
      (llm_analysis ← client (to_dict a);
       let enriched : PyDict :=
         <["llm_model" := get_or llm_analysis "llm_model"
                            (VStr "mixtral-8x7b-32768")]>
         (<["llm_analysis" := get llm_analysis "llm_analysis"]>
          (<["llm_validation" := get llm_analysis "llm_validation"]>
             (to_dict a))) in
       mret (Some enriched))
      (fun e => mret (Some (to_dict a))) w = (Return (Some item), w') /\
    carries a item.
Proof.
  unfold try_except.
  destruct (client (to_dict a) w) as [[r|e] w'] eqn:Hc.
  - rewrite (bind_Return _ _ _ _ _ Hc). eexists _, _. split; [done|].
    repeat apply carries_insert; try apply carries_to_dict.
    all: apply not_allowed; in_list.
  - rewrite (bind_Raise _ _ _ _ _ Hc). eexists _, _. split; [done|].
    apply carries_to_dict.
Qed.

Lemma validate_anomalies_any client anomalies w :
  exists items w',
    validate_anomalies (LLMValidator.mk true (Some client)) anomalies true w
      = (Return items, w') /\
    Forall2 carries anomalies items.
Proof.
  unfold validate_anomalies. cbn [enabled llm_client negb].
  destruct anomalies as [|a0 rest]; [by exists [], w|].
  generalize (a0 :: rest). clear a0 rest. intros l. revert w.
  induction l as [|a l IH]; intros w; [by exists [], w|].
  destruct (validate_one_any client a w) as (item & w1 & Hrun & Hitem).
  destruct (IH w1) as (items & w2 & Hrest & Hitems).
  exists (item :: items), w2. split; [|by constructor].
  cbn [for_append]. rewrite (bind_Return _ _ _ _ _ Hrun).
  by rewrite (bind_Return _ _ _ _ _ Hrest).
Qed.

Lemma rebuild_any anomalies items w :
  Forall constructed anomalies ->
  Forall2 carries anomalies items ->
  exists l,
    for_append items (fun item =>
      anomaly ← from_dict item;
      if truthy (get item "llm_analysis") then
        mret (Some (mkAnomaly (metric_name anomaly) (anomaly_type anomaly)
                (severity anomaly) (timestamp anomaly) (value anomaly)
                (detector_name anomaly) (confidence anomaly)
                (expected_value anomaly) (description anomaly)
                (<["llm_validation" := get item "llm_validation"]>
                 (<["llm_analysis" := get item "llm_analysis"]>
                  (metadata anomaly)))
                (labels anomaly) (anomaly_id anomaly) (start_time anomaly)
                (end_time anomaly) (llm_validated anomaly)
                (llm_status anomaly)))
      else mret (Some anomaly)) w = (Return l, w) /\
    Forall2 enriched_from anomalies l.
Proof.
  intros Hall Hitems. revert Hall.
  induction Hitems as [|a item l items Hc _ IH]; intros Hall.
  { by exists []. }
  apply Forall_cons in Hall as [Ha Hall].
  destruct (IH Hall) as (l' & Hrest & Hl').
  cbn [for_append].
  destruct (truthy (get item "llm_analysis")) eqn:Ht.
  - erewrite bind_Return.
    2: { erewrite bind_Return by (apply from_dict_carries; [done|apply Ha]).
         rewrite (rebuilt_constructed a Ha). reflexivity. }
    rewrite (bind_Return _ _ _ _ _ Hrest). eexists. split; [done|].
    constructor; [|done]. right. by eexists _, _.
  - erewrite bind_Return.
    2: { erewrite bind_Return by (apply from_dict_carries; [done|apply Ha]).
         rewrite (rebuilt_constructed a Ha). reflexivity. }
    rewrite (bind_Return _ _ _ _ _ Hrest). eexists. split; [done|].
    constructor; [|done]. by left.
Qed.

Lemma enrich_stage_any self all_anomalies w :
  (enabled (llm_validator self) = true ->
   is_Some (llm_client (llm_validator self))) ->
  Forall constructed all_anomalies ->
  exists l w',
    enrich_stage self all_anomalies w = (Return l, w') /\
    Forall2 enriched_from all_anomalies l.
Proof.
  intros Hv Hall. unfold enrich_stage.
  destruct (enabled (llm_validator self)) eqn:He; cbn [andb];
    [|exists all_anomalies, w; split; [done|apply enriched_from_refl]].
  case_bool_decide;
    [|exists all_anomalies, w; split; [done|apply enriched_from_refl]].
  destruct (Hv eq_refl) as [client Hc].
  unfold try_except, _enrich_with_llm.
  destruct (llm_validator self) as [en cl]. cbn in He, Hc. subst en cl.
  destruct (validate_anomalies_any client all_anomalies w)
    as (items & w' & Hrun & Hitems).
  rewrite (bind_Return _ _ _ _ _ Hrun).
  destruct (rebuild_any all_anomalies items w' Hall Hitems) as (l & Hl & H2).
  rewrite Hl. eauto.
Qed.

(** X4.  A cycle of the collector never raises, whatever the metrics
    store, the detectors and the LLM client do, and it returns the anomalies
    of its detection stage one for one and in order: each one unchanged, or
    with the analysis and the verdict of the LLM added to its metadata and
    nothing else changed.  (The validator is one whose constructor ran: it is
    not enabled without a client.) *)
Theorem collect_and_analyze_preserves (self : PrometheusCollector.t)
    (w : world) :
  (enabled (llm_validator self) = true ->
   is_Some (llm_client (llm_validator self))) ->
  exists raw l w1 w2,
    detect_all self w = (Return raw, w1) /\
    collect_and_analyze self w = (Return l, w2) /\
    Forall2 enriched_from raw l.
Proof.
  intros Hv.
  destruct (detect_all_total self w) as (raw & w1 & Hd & Hraw).
  destruct (enrich_stage_any self raw w1 Hv Hraw) as (l & w2 & He & Hl).
  exists raw, l, w1, w2. split; [done|]. split; [|done].
  unfold collect_and_analyze. by rewrite (bind_Return _ _ _ _ _ Hd).
Qed.

Lemma collect_and_analyze_preserves_witness :
  exists raw l w1 w2,
    detect_all answering_collector 0%nat = (Return raw, w1) /\
    collect_and_analyze answering_collector 0%nat = (Return l, w2) /\
    Forall2 enriched_from raw l.
Proof.
  apply collect_and_analyze_preserves. intros _. by eexists.
Defined.

(** X5.  [validate_anomalies] with [keep_all=True] returns one dict for
    each anomaly, in order, with the entries of the anomaly under the keys
    [from_dict] reads, whatever the client does.  With [keep_all=False] and
    a client that raises on every call it returns the empty list. *)
Theorem validate_anomalies_keep_all (self : LLMValidator.t)
    (client : PyDict -> M PyDict) (anomalies : list Anomaly) (w : world) :
  enabled self = true ->
  llm_client self = Some client ->
  (exists items w',
     validate_anomalies self anomalies true w = (Return items, w') /\
     Forall2 carries anomalies items) /\
  ((forall d w0, exists e w1, client d w0 = (Raise e, w1)) ->
   exists w',
     validate_anomalies self anomalies false w = (Return [], w')).
Proof.
  intros He Hc. destruct self as [en cl]. cbn in He, Hc. subst en cl.
  split; [apply validate_anomalies_any|].
  intros Hraise. unfold validate_anomalies. cbn [enabled llm_client negb].
  destruct anomalies as [|a0 rest]; [by exists w|].
  generalize (a0 :: rest). clear a0 rest. intros l. revert w.
  induction l as [|a l IH]; intros w; [by exists w|].
  destruct (Hraise (to_dict a) w) as (e & w1 & Hr).
  destruct (IH w1) as (w2 & Hrest).
  exists w2. cbn [for_append].
  erewrite bind_Return.
  2: { unfold try_except. rewrite (bind_Raise _ _ _ _ _ Hr). reflexivity. }
  by rewrite (bind_Return _ _ _ _ _ Hrest).
Qed.

Lemma validate_anomalies_keep_all_witness :
  (exists items w',
     validate_anomalies timing_out [validated_anomaly] true 0%nat =
       (Return items, w') /\
     Forall2 carries [validated_anomaly] items) /\
  exists w',
    validate_anomalies timing_out [validated_anomaly] false 0%nat =
      (Return [], w').
Proof.
  destruct (validate_anomalies_keep_all timing_out
              (fun _ => raise (OtherError "timeout")) [validated_anomaly]
              0%nat eq_refl eq_refl) as [H1 H2].
  split; [exact H1|]. apply H2. intros d w0. by eexists _, _.
Defined.

End EnrichAny.

(** ** [LLMClient.validate_anomaly] *)

Section ClientFacts.
Import LLMClient.

(** X6.  [LLMClient.validate_anomaly] never raises, whatever the remote
    service does.  A disabled client answers [llm_validation: None]; an
    enabled one answers with the text of the service and the model that
    gave it, or, when the call failed, with [llm_validation: False] and the
    error, and then without any [llm_analysis]. *)
Theorem validate_anomaly_never_raises (self : LLMClient.t)
    (anomaly_dict : PyDict) (w : world) :
  exists r w',
    validate_anomaly self anomaly_dict w = (Return r, w') /\
    ((enabled self = false /\ r = llm_disabled) \/
     (enabled self = true /\
      exists analysis model_name,
        r = llm_answer analysis model_name /\
        model_name ∈ [model self; FALLBACK_MODEL]) \/
     (enabled self = true /\
      exists error, r = llm_failure error /\ r !! "llm_analysis" = None)).
Proof.
  unfold validate_anomaly.
  destruct (enabled self) eqn:He; cbn [negb].
  2: { eexists _, _. split; [done|]. by left. }
  unfold try_except, _call_model.
  set (p := _build_validation_prompt anomaly_dict).
  destruct (chat_completions_create self (model self) p w)
    as [[s|e] w1] eqn:H1.
  - rewrite (bind_Return _ _ _ _ _ H1). eexists _, _. split; [done|].
    right. left. split; [done|]. eexists _, _. split; [done|]. in_list.
  - rewrite (bind_Raise _ _ _ _ _ H1).
    destruct (_ || _).
    + destruct (chat_completions_create self FALLBACK_MODEL p w1)
        as [[s|e2] w2] eqn:H2.
      * rewrite (bind_Return _ _ _ _ _ H2). eexists _, _. split; [done|].
        right. left. split; [done|]. eexists _, _. split; [done|]. in_list.
      * rewrite (bind_Raise _ _ _ _ _ H2). eexists _, _. split; [done|].
        right. right. split; [done|]. by eexists.
    + eexists _, _. split; [done|].
      right. right. split; [done|]. by eexists.
Qed.

End ClientFacts.

(** ** What the detectors raise *)


Lemma getitem_inv {A} (l : list A) i x w w' :
  getitem l i w = (Return x, w') -> l !! i = Some x /\ w' = w.
Proof.
  unfold getitem. destruct (l !! i); [|done]. by intros [= -> ->].
Qed.

Lemma sample_reading metric i v mv :
  get_values_array metric !! i = Some v ->
  m_values metric !! i = Some mv -> v = mv_value mv.
Proof.
  unfold get_values_array. rewrite list_lookup_fmap. intros H1 H2.
  rewrite H2 in H1. by injection H1.
Qed.

Section RaiseFacts.



(** X8.  With a window of 0 or 1 sample, [PatternDetector.detect] raises
    on every series that passes its length check: the smoothing window
    [window_size // 2] is empty, and [np.convolve] (or, on a series of fewer
    than two samples, [np.gradient]) raises [ValueError]. *)
Theorem pattern_detect_raises (self : PatternDetector.t) (metric : Metric)
    (w : world) :
  PatternDetector.enabled self = true ->
  (PatternDetector.window_size self <= 1)%nat ->
  (PatternDetector.window_size self * 2 <= length (m_values metric))%nat ->
  exists msg,
    PatternDetector.detect self metric w = (Raise (ValueError msg), w).
Proof.
  intros Hen Hws Hlen. unfold PatternDetector.detect.
  rewrite Hen. cbn [negb]. cbn zeta.
  unfold BaseDetector.validate_metric. rewrite decide_False by lia.
  cbn [negb].
  assert (exists msg,
            PatternDetector._detect_trend_changes self metric
              (get_values_array metric) w = (Raise (ValueError msg), w))
    as [msg Hraise]; [|exists msg; by apply bind_Raise].
  unfold PatternDetector._detect_trend_changes, np.gradient.
  destruct (decide (length (get_values_array metric) < 2)%nat) as [|Hn].
  { by eexists. }
  erewrite bind_Return by reflexivity.
  eexists. apply bind_Raise. unfold np.convolve_valid.
  rewrite decide_False by (rewrite length_imap; lia).
  replace (PatternDetector.window_size self / 2)%nat with 0%nat.
  - reflexivity.
  - symmetry. apply Nat.div_small. lia.
Qed.

Lemma pattern_detect_raises_witness :
  exists msg,
    PatternDetector.detect narrow_config scenario 0%nat =
    (Raise (ValueError msg), 0%nat).
Proof.
  apply pattern_detect_raises; [reflexivity|cbn; lia|cbn; lia].
Defined.





(** X10.  [StatisticalDetector.detect] never raises, on any series and
    with any thresholds: the confidence of each of its candidates is in
    [0, 1] by construction. *)
Theorem statistical_detect_never_raises (self : StatisticalDetector.t)
    (metric : Metric) (w : world) :
  exists l w', StatisticalDetector.detect self metric w = (Return l, w').
Proof.
  unfold StatisticalDetector.detect.
  destruct (negb _); [by eexists _, _|].
  destruct (negb _); [by eexists _, _|].
  destruct (_detect_zscore_anomalies_total self metric w) as (zs & w1 & Hz).
  destruct (_detect_iqr_anomalies_total self metric w1) as (is_ & w2 & Hi).
  destruct (_deduplicate_anomalies_spec (zs ++ is_) w2) as (l & Hd & _).
  rewrite (bind_Return _ _ _ _ _ Hz), (bind_Return _ _ _ _ _ Hi). eauto.
Qed.

End RaiseFacts.

(** ** What the detectors report *)

Lemma _create_anomaly_inv name metric ty sev ts v c descr ev md w a w' :
  BaseDetector._create_anomaly name metric ty sev ts v c descr ev md w =
    (Return a, w') ->
  a = mkAnomaly (m_name metric) ty sev ts v name c ev descr md ∅ w None None
        false None.
Proof.
  unfold BaseDetector._create_anomaly.
  by intros (_ & _ & ->)%Anomaly_new_inv.
Qed.

Lemma for_append_Forall_in {A B} (xs : list A) (body : A -> M (option B))
    (P : B -> Prop) w l w' :
  (forall x w o w', x ∈ xs -> body x w = (Return (Some o), w') -> P o) ->
  for_append xs body w = (Return l, w') -> Forall P l.
Proof.
  revert w l w'. induction xs as [|x xs IH]; intros w l w' Hb H.
  - cbn in H. by injection H as <- _.
  - cbn [for_append] in H. inv_run H. subst l.
    assert (Forall P x1) as Hrest.
    { eapply IH; [|exact Hrun0]. intros y ? ? ? Hy. apply Hb. by right. }
    destruct x0 as [b|]; [|done]. constructor; [|done].
    eapply Hb; [by left|exact Hrun].
Qed.

(** Finishes a goal [flags metric a] for an anomaly just built from the
    sample at an index that was read from [metric.values]. *)
Ltac by_sample :=
  simplify_eq;
  match goal with
  | H : BaseDetector._create_anomaly _ _ _ _ _ _ _ _ _ _ _ = (Return ?a, _)
    |- flags _ ?a =>
      apply _create_anomaly_inv in H; subst a; split; [reflexivity|]
  end;
  repeat match goal with
    | H : getitem _ _ _ = (Return _, _) |- _ =>
        apply getitem_inv in H as [H ?]
    end;
  simplify_eq;
  match goal with
  | H : m_values ?m !! ?i = Some ?mv |- _ =>
      exists mv; split; [by eapply list_elem_of_lookup_2|];
      split; [reflexivity|]; cbn;
      first [reflexivity | by eapply sample_reading]
  end.

Section FlagFacts.

Lemma spike_flags self metric w l w' :
  SpikeDetector.detect self metric w = (Return l, w') ->
  Forall (flags metric) l.
Proof.
  unfold SpikeDetector.detect.
  destruct (negb _); [by intros [= <- _]|].
  destruct (negb _); [by intros [= <- _]|].
  apply for_append_Forall. intros i wa a wb H.
  unfold SpikeDetector.body in H. inv_all H.
  all: unfold SpikeDetector.check_change in H; inv_all H.
  all: by_sample.
Qed.

Lemma threshold_flags self metric w l w' :
  ThresholdDetector.detect self metric w = (Return l, w') ->
  Forall (flags metric) l.
Proof.
  unfold ThresholdDetector.detect.
  destruct (negb _); [by intros [= <- _]|].
  destruct (negb _); [by intros [= <- _]|].
  intros H. inv_all H; try by (subst; constructor).
  revert H. apply for_append_Forall_in. intros mv wa a wb Hin Hb.
  unfold ThresholdDetector._check_thresholds in Hb. inv_all Hb.
  all: unfold ThresholdDetector._create_threshold_anomaly in *.
  all: repeat match goal with
         | H : (let '(_, _) := ?p in _) _ = _ |- _ => destruct p
         end.
  all: simplify_eq.
  all: match goal with
       | H : BaseDetector._create_anomaly _ _ _ _ _ _ _ _ _ _ _ = _ |- _ =>
           apply _create_anomaly_inv in H; subst
       end.
  all: split; [reflexivity|]; by exists mv.
Qed.

Lemma statistical_flags self metric w l w' :
  StatisticalDetector.detect self metric w = (Return l, w') ->
  Forall (flags metric) l.
Proof.
  unfold StatisticalDetector.detect.
  destruct (negb _); [by intros [= <- _]|].
  destruct (negb _); [by intros [= <- _]|].
  intros H. inv_all H.
  rename x into zs, x0 into is_.
  assert (Forall (flags metric) zs) as Hzs.
  { revert Hrun. unfold StatisticalDetector._detect_zscore_anomalies.
    destruct (decide _); [by intros [= <- _]|].
    apply for_append_Forall. intros idx wa a wb Hb. inv_all Hb.
    all: by_sample. }
  assert (Forall (flags metric) is_) as His.
  { revert Hrun0. unfold StatisticalDetector._detect_iqr_anomalies.
    destruct (decide _); [by intros [= <- _]|].
    apply for_append_Forall. intros idx wa a wb Hb. inv_all Hb.
    all: by_sample. }
  destruct (_deduplicate_anomalies_spec (zs ++ is_) w1)
    as (l' & Hd & _ & _ & Hsub).
  rewrite Hd in H. injection H as <- <-.
  apply Forall_forall. intros a Ha. destruct (Hsub a Ha) as [Hin _].
  assert (Forall (flags metric) (zs ++ is_)) as Hall by by apply Forall_app.
  by eapply Forall_forall in Hall.
Qed.

Lemma pattern_flags self metric w l w' :
  PatternDetector.detect self metric w = (Return l, w') ->
  Forall (flags metric) l.
Proof.
  unfold PatternDetector.detect.
  destruct (negb _); [by intros [= <- _]|].
  destruct (negb _); [by intros [= <- _]|].
  intros H. inv_all H. subst l. apply Forall_app. split.
  - revert Hrun. unfold PatternDetector._detect_trend_changes. intros H.
    inv_all H. revert H.
    apply for_append_Forall. intros idx wa a wb Hb. inv_all Hb.
    all: by_sample.
  - revert Hrun0. unfold PatternDetector._detect_moving_average_deviations.
    apply for_append_Forall. intros idx wa a wb Hb.
    unfold PatternDetector.ma_body in Hb. inv_all Hb.
    all: by_sample.
Qed.

(** X11.  Every anomaly a detector returns reports a sample of the
    series it was given: it has the name of the series, and its timestamp
    and its value are those of one and the same sample.  No detector
    reports a derived value (a mean, a difference) as the observed one. *)
Theorem detectors_flag_samples (detector : PrometheusCollector.Detector)
    (metric : Metric) (w : world) (l : list Anomaly) (w' : world) :
  PrometheusCollector.detect detector metric w = (Return l, w') ->
  Forall (flags metric) l.
Proof.
  destruct detector; cbn.
  - apply spike_flags.
  - apply statistical_flags.
  - apply threshold_flags.
  - apply pattern_flags.
Qed.

End FlagFacts.

Lemma detectors_flag_samples_witness :
  exists l w',
    PrometheusCollector.detect (PrometheusCollector.Spike scenario_config)
      scenario 0%nat = (Return l, w') /\
    length l = 2%nat /\ Forall (flags scenario) l.
Proof.
  destruct (scenario_output 0%nat) as (id1 & id2 & w' & Ho).
  eexists _, w'. split; [exact Ho|]. split; [reflexivity|].
  exact (detectors_flag_samples (PrometheusCollector.Spike scenario_config)
           scenario 0%nat _ w' Ho).
Defined.

(** ** The order of the output *)

Lemma for_append_sublist {A B C} (xs : list A) (body : A -> M (option B))
    (f : B -> C) (g : A -> C) w l w' :
  (forall x w o w', body x w = (Return (Some o), w') -> f o = g x) ->
  for_append xs body w = (Return l, w') ->
  sublist (f <$> l) (g <$> xs).
Proof.
  intros Hb. revert w l w'. induction xs as [|x xs IH]; intros w l w' H.
  - cbn in H. injection H as <- _. constructor.
  - cbn [for_append] in H. inv_run H. subst l.
    specialize (IH _ _ _ Hrun0).
    destruct x0 as [b|]; cbn.
    + rewrite (Hb _ _ _ _ Hrun). by constructor.
    + by constructor.
Qed.

Lemma for_append_seq_sublist {B C} (body : nat -> M (option B)) (f : B -> C)
    (cs : list C) a k w l w' :
  (forall i w o w', body i w = (Return (Some o), w') -> cs !! i = Some (f o)) ->
  for_append (seq a k) body w = (Return l, w') ->
  sublist (f <$> l) (take k (drop a cs)).
Proof.
  intros Hb. revert a w l w'. induction k as [|k IH]; intros a w l w' H.
  - cbn in H. injection H as <- _. rewrite take_0. constructor.
  - cbn [seq for_append] in H. inv_run H. subst l.
    specialize (IH _ _ _ _ Hrun0).
    destruct (cs !! a) as [c|] eqn:Hc.
    + rewrite (drop_S _ _ _ Hc). cbn [take].
      destruct x as [b|]; cbn.
      * apply Hb in Hrun. rewrite Hc in Hrun. injection Hrun as ->.
        by constructor.
      * by constructor.
    + destruct x as [b|].
      { apply Hb in Hrun. congruence. }
      apply lookup_ge_None in Hc.
      rewrite drop_ge in IH |- * by lia.
      by rewrite take_nil in IH |- *.
Qed.

Section OrderFacts.

(** X12.  [SpikeDetector.detect] reports samples in the order of the
    series, each one at most once, and never the first sample: the
    timestamps and values of its result form a subsequence of those of the
    samples after the first. *)
Theorem spike_detect_in_order (self : SpikeDetector.t) (metric : Metric)
    (w : world) (l : list Anomaly) (w' : world) :
  SpikeDetector.detect self metric w = (Return l, w') ->
  sublist (readings l) (samples_of (drop 1 (m_values metric))).
Proof.
  unfold SpikeDetector.detect.
  destruct (negb _); [intros [= <- _]; apply sublist_nil_l|].
  destruct (negb _); [intros [= <- _]; apply sublist_nil_l|].
  intros H. unfold range in H.
  eapply (for_append_seq_sublist _ (fun a => (timestamp a, value a))
            (samples_of (m_values metric))) in H.
  - unfold readings, samples_of in *. rewrite fmap_drop.
    rewrite take_ge in H; [done|].
    rewrite length_drop, length_fmap, values_length. lia.
  - clear. intros i w a w' H.
    unfold SpikeDetector.body in H. inv_all H.
    all: unfold SpikeDetector.check_change in H; inv_all H.
    all: simplify_eq.
    all: match goal with
         | H : BaseDetector._create_anomaly _ _ _ _ _ _ _ _ _ _ _ = _ |- _ =>
             apply _create_anomaly_inv in H; subst
         end.
    all: repeat match goal with
           | H : getitem _ _ _ = (Return _, _) |- _ =>
               apply getitem_inv in H as [H ?]
           end.
    all: unfold samples_of; rewrite list_lookup_fmap.
    all: match goal with
         | H : m_values _ !! _ = Some ?mv |- _ => rewrite H; cbn
         end.
    all: do 2 f_equal; symmetry; by eapply sample_reading.
Qed.

Lemma spike_detect_in_order_witness :
  exists l w',
    SpikeDetector.detect scenario_config scenario 0%nat = (Return l, w') /\
    length l = 2%nat /\
    sublist (readings l) (samples_of (drop 1 (m_values scenario))).
Proof.
  destruct (scenario_output 0%nat) as (id1 & id2 & w' & Ho).
  eexists _, w'. split; [exact Ho|]. split; [reflexivity|].
  exact (spike_detect_in_order scenario_config scenario 0%nat _ w' Ho).
Defined.

Lemma _get_metric_thresholds_total self name w :
  in_fragment (ThresholdDetector.thresholds self) ->
  exists o, ThresholdDetector._get_metric_thresholds self name w =
            (Return o, w).
Proof.
  intros Hf. unfold ThresholdDetector._get_metric_thresholds.
  destruct (ThresholdDetector.thresholds_get self name); [by eexists|].
  rewrite match_patterns_run by done. by eexists.
Qed.

Lemma _check_thresholds_total metric v ts th w :
  exists o w',
    ThresholdDetector._check_thresholds metric v ts th w = (Return o, w').
Proof.
  pose proof (_check_thresholds_first_match metric v ts th w) as H.
  destruct (list_find _ _) as [[i [key sev]]|].
  - destruct H as (a & bound & H & _). eauto.
  - eauto.
Qed.

Lemma _check_thresholds_inv metric v ts th w a w' :
  ThresholdDetector._check_thresholds metric v ts th w =
    (Return (Some a), w') ->
  anomaly_type a = THRESHOLD_BREACH /\ confidence a = 1 /\
  severity a ≠ LOW /\ value a = v /\ timestamp a = ts /\
  exists key bound,
    th !! key = Some bound /\ expected_value a = Some bound /\
    breaches key v bound.
Proof.
  intros Hrun.
  pose proof (_check_thresholds_first_match metric v ts th w) as H.
  destruct (list_find _ _) as [[i [key sev]]|] eqn:Hfind; [|congruence].
  destruct H as (a0 & bound & H & Hb & Hsev & _ & Hev & Hv & Hts & Hc).
  rewrite H in Hrun. injection Hrun as <- <-.
  apply list_find_Some in Hfind as (Hin & Hfire & _).
  apply list_elem_of_lookup_2 in Hin.
  apply fires_iff in Hfire as (bound' & Hb' & Hbr).
  assert (bound' = bound) as -> by congruence.
  split_and!; try done.
  - unfold ThresholdDetector._check_thresholds in H. inv_all H.
    all: unfold ThresholdDetector._create_threshold_anomaly in *.
    all: repeat match goal with
           | H : (let '(_, _) := ?p in _) _ = _ |- _ => destruct p
           end.
    all: simplify_eq.
    all: match goal with
         | H : BaseDetector._create_anomaly _ _ _ _ _ _ _ _ _ _ _ = _ |- _ =>
             by apply _create_anomaly_inv in H as ->
         end.
  - rewrite Hsev. unfold check_order in Hin.
    repeat (apply elem_of_cons in Hin as [[= -> ->]|Hin]; [done|]).
    by apply elem_of_nil in Hin.
  - eauto.
Qed.

(** X13.  [ThresholdDetector.detect], for a configuration whose wildcard
    patterns are in the modelled fragment, never raises.  It reports samples
    in the order of the series, each one at most once; every anomaly is a
    threshold breach with confidence 1, a severity that is never [LOW], and
    as expected value a bound of the resolved bounds that its value
    breaches. *)
Theorem threshold_detect_output (self : ThresholdDetector.t)
    (metric : Metric) (w : world) :
  in_fragment (ThresholdDetector.thresholds self) ->
  exists l w',
    ThresholdDetector.detect self metric w = (Return l, w') /\
    sublist (readings l) (samples_of (m_values metric)) /\
    Forall (fun a =>
      anomaly_type a = THRESHOLD_BREACH /\ confidence a = 1 /\
      severity a ≠ LOW /\
      exists th key bound,
        ThresholdDetector._get_metric_thresholds self (m_name metric) w =
          (Return (Some th), w) /\
        th !! key = Some bound /\ expected_value a = Some bound /\
        breaches key (value a) bound) l.
Proof.
  intros Hf. unfold ThresholdDetector.detect.
  assert (forall w0, exists l w',
            (mret [] : M (list Anomaly)) w0 = (Return l, w') /\
            sublist (readings l) (samples_of (m_values metric)) /\
            Forall (fun a : Anomaly =>
              anomaly_type a = THRESHOLD_BREACH /\ confidence a = 1 /\
              severity a ≠ LOW /\
              exists th key bound,
                ThresholdDetector._get_metric_thresholds self (m_name metric)
                  w = (Return (Some th), w) /\
                th !! key = Some bound /\ expected_value a = Some bound /\
                breaches key (value a) bound) l) as Hnil.
  { intros w0. exists [], w0. split; [done|]. split; [|done].
    apply sublist_nil_l. }
  destruct (negb _); [apply Hnil|].
  destruct (negb _); [apply Hnil|].
  destruct (_get_metric_thresholds_total self (m_name metric) w Hf)
    as [o Hres].
  rewrite (bind_Return _ _ _ _ _ Hres).
  destruct o as [th|]; [|apply Hnil].
  destruct (decide (th = ∅)); [apply Hnil|].
  destruct (for_append_total (m_values metric)
              (fun metric_value =>
                 ThresholdDetector._check_thresholds metric
                   (mv_value metric_value) (mv_timestamp metric_value) th) w)
    as (l & w' & Hrun).
  { intros mv w0 _. apply _check_thresholds_total. }
  exists l, w'. split; [exact Hrun|]. split.
  - eapply (for_append_sublist _ _ (fun a => (timestamp a, value a))
              (fun mv => (mv_timestamp mv, mv_value mv))); [|exact Hrun].
    intros mv w0 a w1 H.
    apply _check_thresholds_inv in H as (_ & _ & _ & -> & -> & _).
    reflexivity.
  - eapply for_append_Forall; [|exact Hrun].
    intros mv w0 a w1 H.
    apply _check_thresholds_inv in H
      as (Hty & Hc & Hsev & Hv & _ & key & bound & Hb & He & Hbr).
    split_and!; try done. exists th, key, bound. by rewrite Hv.
Qed.

Lemma threshold_detect_output_witness :
  exists l w',
    ThresholdDetector.detect cpu_config scenario 0%nat = (Return l, w') /\
    sublist (readings l) (samples_of (m_values scenario)).
Proof.
  destruct (threshold_detect_output cpu_config scenario 0%nat)
    as (l & w' & H & Hs & _).
  - intros p th Hin _. cbn in Hin.
    apply elem_of_cons in Hin as [[= -> _]|Hin]; [by eexists|].
    apply elem_of_cons in Hin as [[= -> _]|Hin]; [by eexists|].
    by apply elem_of_nil in Hin.
  - by exists l, w'.
Defined.

End OrderFacts.

(** ** Severities *)

Section SeverityFacts.

(** X14.  The severity a detector computes never goes down when the
    measured amplitude goes up: the percent change of the spike detector,
    the Z-score and the normalised IQR distance of the statistical one. *)
Theorem severity_is_monotone (x y : R) :
  x <= y ->
  (Severity_rank (SpikeDetector._calculate_severity x) <=
   Severity_rank (SpikeDetector._calculate_severity y))%nat /\
  (Severity_rank (StatisticalDetector._calculate_zscore_severity x) <=
   Severity_rank (StatisticalDetector._calculate_zscore_severity y))%nat /\
  (Severity_rank (StatisticalDetector._calculate_iqr_severity x) <=
   Severity_rank (StatisticalDetector._calculate_iqr_severity y))%nat.
Proof.
  intros Hxy.
  unfold SpikeDetector._calculate_severity,
    StatisticalDetector._calculate_zscore_severity,
    StatisticalDetector._calculate_iqr_severity.
  split_and!; repeat case_decide; cbn; first [lia | lra].
Qed.

Lemma severity_is_monotone_witness :
  (Severity_rank (SpikeDetector._calculate_severity 80) <=
   Severity_rank (SpikeDetector._calculate_severity 250))%nat.
Proof.
  destruct (severity_is_monotone 80 250) as [H _]; [lra|exact H].
Defined.

End SeverityFacts.

(** ** Deduplication, again *)

Section DedupMore.
Import StatisticalDetector.

Lemma group_append_fresh g ts a :
  ts ∉ g.*1 -> group_append g ts a = g ++ [(ts, [a])].
Proof.
  induction g as [|[ts' anoms] g IH]; intros Hts; [done|].
  cbn in *. apply not_elem_of_cons in Hts as [Hne Hts].
  rewrite decide_False by done. by rewrite IH.
Qed.

Lemma foldl_singletons l0 l :
  NoDup (timestamp <$> (l0 ++ l)) ->
  foldl (fun d a => group_append d (timestamp a) a) (singletons l0) l =
  singletons (l0 ++ l).
Proof.
  revert l0. induction l as [|a l IH]; intros l0 Hnd.
  - by rewrite app_nil_r.
  - cbn [foldl]. rewrite group_append_fresh.
    + replace (singletons l0 ++ [(timestamp a, [a])])
        with (singletons (l0 ++ [a]))
        by (unfold singletons; by rewrite fmap_app).
      rewrite IH; rewrite <- app_assoc; done.
    + unfold singletons. rewrite <- list_fmap_compose.
      rewrite fmap_app in Hnd. apply NoDup_app in Hnd as (_ & Hd & _).
      intros Hin. apply (Hd _ Hin). cbn. by left.
Qed.

Lemma dedup_singletons l w :
  for_append (singletons l) (fun '(ts, anoms) =>
    best ← max_by_confidence anoms; mret (Some best)) w = (Return l, w).
Proof.
  induction l as [|a l IH]; [done|].
  cbn [singletons fmap list_fmap for_append].
  erewrite bind_Return by reflexivity.
  unfold singletons in IH. by rewrite (bind_Return _ _ _ _ _ IH).
Qed.

(** X15.  [_deduplicate_anomalies] returns a list of anomalies with
    distinct timestamps unchanged, in the same order; so deduplicating twice
    gives what deduplicating once gives. *)
Theorem deduplicate_is_idempotent :
  (forall l w,
     NoDup (timestamp <$> l) ->
     _deduplicate_anomalies l w = (Return l, w)) /\
  (forall l w,
     exists l',
       _deduplicate_anomalies l w = (Return l', w) /\
       _deduplicate_anomalies l' w = (Return l', w)).
Proof.
  assert (forall l w,
            NoDup (timestamp <$> l) ->
            _deduplicate_anomalies l w = (Return l, w)) as Hid.
  { intros l w Hnd. unfold _deduplicate_anomalies.
    destruct l as [|a l]; [done|].
    change [] with (singletons []) at 1.
    rewrite foldl_singletons by done. apply dedup_singletons. }
  split; [exact Hid|].
  intros l w.
  destruct (_deduplicate_anomalies_spec l w) as (l' & Hd & Hnd & _).
  exists l'. split; [done|]. by apply Hid.
Qed.

End DedupMore.

(** ** [ThresholdDetector.add_threshold] *)

Section AddThreshold.
Import ThresholdDetector.

Lemma dict_set_lookup {V} (d : list (string * V)) key value :
  (fun ip : nat * (string * V) => ip.2.2)
    <$> list_find (fun p => p.1 = key) (dict_set d key value) = Some value.
Proof.
  induction d as [|[k v] d IH]; cbn.
  - by rewrite decide_True.
  - destruct (decide (k = key)) as [->|Hne]; cbn.
    + by rewrite decide_True.
    + rewrite decide_False by done.
      destruct (list_find _ (dict_set d key value)) as [[i p]|]; [|done].
      cbn in *. done.
Qed.

Lemma dict_set_lookup_ne {V} (d : list (string * V)) key value key' :
  key' <> key ->
  (fun ip : nat * (string * V) => ip.2.2)
    <$> list_find (fun p => p.1 = key') (dict_set d key value) =
  (fun ip : nat * (string * V) => ip.2.2)
    <$> list_find (fun p => p.1 = key') d.
Proof.
  intros Hne. induction d as [|[k v] d IH]; cbn.
  - by rewrite decide_False by done.
  - destruct (decide (k = key)) as [->|Hk]; cbn.
    + by rewrite !decide_False by done.
    + destruct (decide (k = key')); [done|].
      destruct (list_find _ (dict_set d key value)) as [[i p]|],
        (list_find _ d) as [[j q]|]; cbn in *; congruence.
Qed.

Lemma dict_set_keys {V} (d : list (string * V)) key value :
  (dict_set d key value).*1 =
  if decide (key ∈ d.*1) then d.*1 else d.*1 ++ [key].
Proof.
  induction d as [|[k v] d IH]; cbn.
  - rewrite decide_False; [done|]. apply not_elem_of_nil.
  - destruct (decide (k = key)) as [->|Hk]; cbn.
    + rewrite decide_True; [done|]. by left.
    + rewrite IH. destruct (decide (key ∈ d.*1)).
      * rewrite decide_True; [done|]. by right.
      * rewrite decide_False; [done|].
        intros [?|?]%elem_of_cons; congruence.
Qed.

(** X16.  After [add_threshold(name, warning, critical, min_val, max_val)]
    the bounds of [name] are exactly the arguments that were given: earlier
    bounds of [name] are replaced, not merged, so that a [max_rate] or
    [min_rate] it had is gone.  The exact entry of every other name is as
    before, and no entry changes its place in the order in which wildcard
    patterns are tried. *)
Theorem add_threshold_replaces (self : ThresholdDetector.t) (name : string)
    (warning critical min_val max_val : option R) (w : world) :
  let self' := add_threshold self name warning critical min_val max_val in
  (exists th,
     _get_metric_thresholds self' name w = (Return (Some th), w) /\
     th !! "warning" = warning /\ th !! "critical" = critical /\
     th !! "min" = min_val /\ th !! "max" = max_val /\
     forall key, key ∉ ["warning"; "critical"; "min"; "max"]%string ->
                 th !! key = None) /\
  (forall name', name' <> name ->
     thresholds_get self' name' = thresholds_get self name') /\
  (thresholds self').*1 =
    (if decide (name ∈ (thresholds self).*1) then (thresholds self).*1
     else (thresholds self).*1 ++ [name]) /\
  enabled self' = enabled self.
Proof.
  intros self'. split_and!.
  - eexists. split.
    { unfold _get_metric_thresholds, thresholds_get, self', add_threshold.
      cbn [thresholds]. by rewrite dict_set_lookup. }
    destruct warning, critical, min_val, max_val; cbn.
    all: split_and!;
      try (intros key Hk; rewrite !not_elem_of_cons in Hk;
           destruct Hk as (? & ? & ? & ? & _));
      by simplify_map_eq.
  - intros name' Hne. unfold thresholds_get, self', add_threshold.
    cbn [thresholds]. by apply dict_set_lookup_ne.
  - apply dict_set_keys.
  - reflexivity.
Qed.

(** X17.  [add_threshold] without any bound silences the metric:
    [detect] then returns the empty list for the series of that name,
    whatever it held before and whatever wildcard pattern matches the
    name. *)
Theorem add_threshold_without_bounds_silences (self : ThresholdDetector.t)
    (metric : Metric) (w : world) :
  detect (add_threshold self (m_name metric) None None None None) metric w =
  (Return [], w).
Proof.
  unfold detect.
  destruct (negb _); [done|]. destruct (negb _); [done|].
  erewrite bind_Return.
  2: { unfold _get_metric_thresholds, thresholds_get, add_threshold.
       cbn [thresholds]. rewrite dict_set_lookup. reflexivity. }
  cbn beta iota. by rewrite decide_True.
Qed.

End AddThreshold.

(** ** [Metric] *)

Section MetricFacts.

(** X18.  [add_value] puts the sample at the end of the series: it is the
    latest value, the length grows by one, and the arrays of values and of
    timestamps grow by the value and the timestamp.  A missing [labels]
    argument gives the sample the empty label set. *)
Theorem add_value_appends (m : Metric) (ts : datetime) (v : R)
    (ls : option Labels) :
  let m' := add_value m ts v ls in
  get_latest_value m' = Some (mkMetricValue ts v (default ∅ ls)) /\
  Metric_len m' = S (Metric_len m) /\
  get_values_array m' = get_values_array m ++ [v] /\
  get_timestamps_array m' = get_timestamps_array m ++ [ts] /\
  (get_latest_value m = None <-> Metric_len m = 0%nat).
Proof.
  intros m'. unfold m', add_value, get_latest_value, Metric_len,
    get_values_array, get_timestamps_array. cbn.
  split_and!.
  - by rewrite last_snoc.
  - rewrite length_app. cbn. lia.
  - by rewrite map_app.
  - by rewrite map_app.
  - rewrite last_None. split; [by intros ->|]. by intros ?%nil_length_inv.
Qed.

End MetricFacts.

(** ** Spikes do not depend on the unit *)

Section ScaleFacts.
Import SpikeDetector.





End ScaleFacts.

(** ** The Z-score test and the IQR test *)





Section TestFacts.
Import StatisticalDetector.







End TestFacts.

(** ** What goes to the orchestrator *)

(** Finishes a goal [emitted a] for an anomaly just built. *)
Ltac by_emitted :=
  simplify_eq;
  match goal with
  | H : BaseDetector._create_anomaly _ _ _ _ _ _ _ _ _ _ _ = (Return ?a, _)
    |- emitted ?a =>
      pose proof (_create_anomaly_constructed _ _ _ _ _ _ _ _ _ _ _ _ _ H);
      apply _create_anomaly_inv in H; subst a
  end;
  repeat match goal with
    | H : (if decide ?P then _ else _) = _ |- _ => destruct (decide P)
    | H : (if bool_decide ?P then _ else _) = _ |- _ =>
        destruct (bool_decide P)
    end;
  simplify_eq;
  lazymatch goal with
  | |- emitted _ =>
      split; [done|]; split; [reflexivity|];
      cbn; rewrite ?lookup_insert_ne by done; apply lookup_empty
  end.

Section PayloadFacts.
Import PrometheusCollector.

Lemma spike_emitted self metric w l w' :
  SpikeDetector.detect self metric w = (Return l, w') -> Forall emitted l.
Proof.
  unfold SpikeDetector.detect.
  destruct (negb _); [by intros [= <- _]|].
  destruct (negb _); [by intros [= <- _]|].
  apply for_append_Forall. intros i wa a wb H.
  unfold SpikeDetector.body in H. inv_all H.
  all: unfold SpikeDetector.check_change in H; inv_all H.
  all: by_emitted.
Qed.

Lemma threshold_emitted self metric w l w' :
  ThresholdDetector.detect self metric w = (Return l, w') ->
  Forall emitted l.
Proof.
  unfold ThresholdDetector.detect.
  destruct (negb _); [by intros [= <- _]|].
  destruct (negb _); [by intros [= <- _]|].
  intros H. inv_all H; try by (subst; constructor).
  revert H. apply for_append_Forall. intros mv wa a wb Hb.
  unfold ThresholdDetector._check_thresholds in Hb. inv_all Hb.
  all: unfold ThresholdDetector._create_threshold_anomaly in *.
  all: repeat match goal with
         | H : (let '(_, _) := ?p in _) _ = _ |- _ => destruct p
         end.
  all: by_emitted.
Qed.

Lemma statistical_emitted self metric w l w' :
  StatisticalDetector.detect self metric w = (Return l, w') ->
  Forall emitted l.
Proof.
  unfold StatisticalDetector.detect.
  destruct (negb _); [by intros [= <- _]|].
  destruct (negb _); [by intros [= <- _]|].
  intros H. inv_all H.
  rename x into zs, x0 into is_.
  assert (Forall emitted zs) as Hzs.
  { revert Hrun. unfold StatisticalDetector._detect_zscore_anomalies.
    destruct (decide _); [by intros [= <- _]|].
    apply for_append_Forall. intros idx wa a wb Hb. inv_all Hb.
    all: by_emitted. }
  assert (Forall emitted is_) as His.
  { revert Hrun0. unfold StatisticalDetector._detect_iqr_anomalies.
    destruct (decide _); [by intros [= <- _]|].
    apply for_append_Forall. intros idx wa a wb Hb. inv_all Hb.
    all: by_emitted. }
  destruct (_deduplicate_anomalies_spec (zs ++ is_) w1)
    as (l' & Hd & _ & _ & Hsub).
  rewrite Hd in H. injection H as <- <-.
  apply Forall_forall. intros a Ha. destruct (Hsub a Ha) as [Hin _].
  assert (Forall emitted (zs ++ is_)) as Hall by by apply Forall_app.
  by eapply Forall_forall in Hall.
Qed.

Lemma pattern_emitted self metric w l w' :
  PatternDetector.detect self metric w = (Return l, w') ->
  Forall emitted l.
Proof.
  unfold PatternDetector.detect.
  destruct (negb _); [by intros [= <- _]|].
  destruct (negb _); [by intros [= <- _]|].
  intros H. inv_all H. subst l. apply Forall_app. split.
  - revert Hrun. unfold PatternDetector._detect_trend_changes. intros H.
    inv_all H. revert H.
    apply for_append_Forall. intros idx wa a wb Hb. inv_all Hb.
    all: by_emitted.
  - revert Hrun0. unfold PatternDetector._detect_moving_average_deviations.
    apply for_append_Forall. intros idx wa a wb Hb.
    unfold PatternDetector.ma_body in Hb. inv_all Hb.
    all: by_emitted.
Qed.

Lemma detect_emitted detector metric w l w' :
  PrometheusCollector.detect detector metric w = (Return l, w') ->
  Forall emitted l.
Proof.
  destruct detector; cbn.
  - apply spike_emitted.
  - apply statistical_emitted.
  - apply threshold_emitted.
  - apply pattern_emitted.
Qed.

Lemma detect_all_emitted self w :
  exists raw w', detect_all self w = (Return raw, w') /\ Forall emitted raw.
Proof.
  apply for_extend_total. intros metric_name w0. apply try_or_empty.
  intros l w' H. inv_run H.
  destruct x as [metric|]; [|inv_run H; by subst].
  destruct (decide _); [inv_run H; by subst|].
  revert H. generalize w1. clear. intros w1 H.
  unfold _detect_anomalies in H.
  destruct (for_extend_total (detectors self)
              (fun detector =>
                 try_except (PrometheusCollector.detect detector metric)
                   (fun e => mret [])) emitted w1) as (l' & w2 & Hd & Hl).
  { intros detector w0. apply try_or_empty.
    intros l0 w0'. apply detect_emitted. }
  congruence.
Qed.

(** The enrichment keeps what [to_orchestrator_dict] reads, but for the
    analysis in the metadata. *)
Lemma enriched_emitted a b :
  emitted a -> enriched_from a b ->
  constructed b /\ detector_name b = detector_of (anomaly_type b) /\
  metadata b !! "threshold" = None /\ timestamp b = timestamp a /\
  anomaly_type b = anomaly_type a.
Proof.
  intros (Hc & Hd & Ht) [->|(analysis & validation & _ & ->)]; [done|].
  destruct Hc. split_and!; try done.
  cbn. by rewrite !lookup_insert_ne by done.
Qed.

Lemma collect_and_analyze_emits self w :
  (LLMValidator.enabled (llm_validator self) = true ->
   is_Some (LLMValidator.llm_client (llm_validator self))) ->
  exists l w',
    collect_and_analyze self w = (Return l, w') /\
    Forall (fun b =>
      constructed b /\ detector_name b = detector_of (anomaly_type b) /\
      metadata b !! "threshold" = None) l.
Proof.
  intros Hv.
  destruct (detect_all_emitted self w) as (raw & w1 & Hd & Hraw).
  destruct (enrich_stage_any self raw w1 Hv) as (l & w2 & He & Hl).
  { eapply Forall_impl; [exact Hraw|]. by intros a [? _]. }
  exists l, w2. split.
  { unfold collect_and_analyze. by rewrite (bind_Return _ _ _ _ _ Hd). }
  clear He Hd. induction Hl as [|a b raw l Hab _ IH]; [done|].
  apply Forall_cons in Hraw as [Ha Hraw].
  constructor; [|by apply IH].
  destruct (enriched_emitted a b Ha Hab) as (? & ? & ? & _). done.
Qed.

Lemma to_orchestrator_dict_detector a :
  to_orchestrator_dict a !! "detector" =
    Some (VStr (default (detector_name a)
                  (ANOMALY_TYPE_TO_DETECTOR (anomaly_type a)))) /\
  to_orchestrator_dict a !! "suggested_category" =
    Some (VStr (default "unknown"%string
                  (DETECTOR_TO_CATEGORY !!
                     default (detector_name a)
                       (ANOMALY_TYPE_TO_DETECTOR (anomaly_type a))))).
Proof.
  unfold to_orchestrator_dict. cbn zeta.
  destruct (truthy _), (llm_status a).
  all: rewrite ?lookup_insert_ne by done.
  all: by rewrite lookup_insert_eq.
Qed.

(** X22.  What the collector hands to the orchestrator names the
    detector and the category by the type of the anomaly: spikes and
    statistical outliers go to [performance], threshold breaches to
    [capacity], pattern anomalies to [availability].  A drop has no entry in
    [ANOMALY_TYPE_TO_DETECTOR]: its detector is the class name
    [SpikeDetector], which [DETECTOR_TO_CATEGORY] does not know, and its
    category is [unknown]. *)
Theorem orchestrator_routing (self : PrometheusCollector.t) (w : world) :
  (LLMValidator.enabled (llm_validator self) = true ->
   is_Some (LLMValidator.llm_client (llm_validator self))) ->
  exists l w',
    collect_and_analyze self w = (Return l, w') /\
    Forall (fun a =>
      let d := to_orchestrator_dict a in
      d !! "detector" = Some (VStr (routing (anomaly_type a)).1) /\
      d !! "suggested_category" = Some (VStr (routing (anomaly_type a)).2))
      l.
Proof.
  intros Hv.
  destruct (collect_and_analyze_emits self w Hv) as (l & w' & Hrun & Hl).
  exists l, w'. split; [done|].
  eapply Forall_impl; [exact Hl|]. intros a (_ & Hd & _). cbn zeta.
  destruct (to_orchestrator_dict_detector a) as [-> ->].
  rewrite Hd. by destruct (anomaly_type a).
Qed.

Lemma orchestrator_routing_witness :
  exists l w',
    collect_and_analyze answering_collector 0%nat = (Return l, w') /\
    Forall (fun a =>
      let d := to_orchestrator_dict a in
      d !! "detector" = Some (VStr (routing (anomaly_type a)).1) /\
      d !! "suggested_category" = Some (VStr (routing (anomaly_type a)).2))
      l.
Proof.
  apply orchestrator_routing. intros _. by eexists.
Defined.

(** X23.  In what the collector hands to the orchestrator,
    [llm_validated] is always [False] and there is no [llm_status], also
    for an anomaly the LLM analysed; [threshold] is always [None] (no
    detector writes a [threshold] entry into the metadata), [labels] is
    always empty, and [start_time] and [end_time] are both the timestamp of
    the anomaly. *)
Theorem orchestrator_payload (self : PrometheusCollector.t) (w : world) :
  (LLMValidator.enabled (llm_validator self) = true ->
   is_Some (LLMValidator.llm_client (llm_validator self))) ->
  exists l w',
    collect_and_analyze self w = (Return l, w') /\
    Forall (fun a =>
      let d := to_orchestrator_dict a in
      d !! "llm_validated" = Some (VBool false) /\
      d !! "llm_status" = None /\
      d !! "threshold" = Some VNone /\
      d !! "labels" = Some (VLabels ∅) /\
      d !! "start_time" = Some (VIso (timestamp a)) /\
      d !! "end_time" = Some (VIso (timestamp a))) l.
Proof.
  intros Hv.
  destruct (collect_and_analyze_emits self w Hv) as (l & w' & Hrun & Hl).
  exists l, w'. split; [done|].
  eapply Forall_impl; [exact Hl|]. intros a ([_ Hlab Hs He Hval Hst] & _ & Ht).
  unfold to_orchestrator_dict. cbn zeta.
  assert (get (metadata a) "threshold" = VNone) as ->
    by (unfold get; by rewrite Ht).
  rewrite Hst, Hval, Hlab, Hs, He. cbn [default].
  destruct (truthy _).
  all: split_and!.
  all: rewrite ?lookup_insert_ne by done.
  all: first [by rewrite lookup_insert_eq | apply lookup_empty].
Qed.

Lemma orchestrator_payload_witness :
  exists l w',
    collect_and_analyze answering_collector 0%nat = (Return l, w') /\
    Forall (fun a =>
      to_orchestrator_dict a !! "llm_validated" = Some (VBool false)) l.
Proof.
  destruct (orchestrator_payload answering_collector 0%nat)
    as (l & w' & Hrun & Hl).
  - intros _. by eexists.
  - exists l, w'. split; [done|].
    eapply Forall_impl; [exact Hl|]. by intros a (? & _).
Defined.

End PayloadFacts.
